(** * InvestAI: the agent framework and the analysis orchestrator

    A shallow embedding of the Python agent framework of the product
    specification (section 3.2, [AgentTask], [AgentResult],
    [DataCollectionAgent], [FundamentalAnalysisAgent]) and of the analysis
    workflow (section 4.2.2, [AnalysisOrchestrator.analyze_stock]), together
    with the front end's request and strategy types.

    Python objects are an inductive type of values, dictionaries are
    association lists in insertion order, an [await]ed call is a computation
    that either returns or raises and that reports what it wrote on the way
    (seconds elapsed inside an agent, dispatch events inside the
    orchestrator). *)

From Stdlib Require Import String Ascii List Bool Arith Lia QArith Permutation.
Import ListNotations.
Set Warnings "-register-all".
Local Close Scope Q_scope.
Local Open Scope string_scope.
Local Open Scope list_scope.

(** ** Python values *)

Module Py.

(** Values the agents exchange.  An [AgentResult] is itself a value: the
    orchestrator puts the gathered results into the next task's input. *)
Inductive value : Type :=
| VNone
| VBool (b : bool)
| VNum (q : Q)
| VStr (s : string)
| VList (l : list value)
| VDict (d : list (string * value))
| VResult (r : AgentResult)
with AgentResult : Type :=
| mkAgentResult (task_id : string) (success : bool)
                (data : list (string * value))
                (error_msg : option string) (execution_time : Q).

(** [Dict[str, Any]]: bindings in insertion order, keys unique. *)
Definition dict : Type := list (string * value).

Definition result_task_id (r : AgentResult) : string :=
  let '(mkAgentResult i _ _ _ _) := r in i.
Definition success (r : AgentResult) : bool :=
  let '(mkAgentResult _ s _ _ _) := r in s.
Definition data (r : AgentResult) : dict :=
  let '(mkAgentResult _ _ d _ _) := r in d.
Definition error_msg (r : AgentResult) : option string :=
  let '(mkAgentResult _ _ _ m _) := r in m.
Definition execution_time (r : AgentResult) : Q :=
  let '(mkAgentResult _ _ _ _ t) := r in t.

(** The dataclass constructor with its defaults [error_msg = None] and
    [execution_time = 0]. *)
Definition AgentResult_new (task_id : string) (success : bool) (data : dict)
  : AgentResult :=
  mkAgentResult task_id success data None 0.

(** [d.get(k)] and [d.get(k, default)]. *)
Fixpoint dict_lookup (d : dict) (k : string) : option value :=
  match d with
  | [] => None
  | (k', v) :: rest => if String.eqb k' k then Some v else dict_lookup rest k
  end.

Definition dict_get (d : dict) (k : string) (default : value) : value :=
  match dict_lookup d k with
  | Some v => v
  | None => default
  end.

(** [d[k] = v]: an existing key keeps its place, a new one goes last. *)
Fixpoint dict_set (d : dict) (k : string) (v : value) : dict :=
  match d with
  | [] => [(k, v)]
  | (k', v') :: rest =>
      if String.eqb k' k then (k', v) :: rest else (k', v') :: dict_set rest k v
  end.

Definition keys (d : dict) : list string := map fst d.

(** [v == "literal"]: only a [str] can equal a [str]. *)
Definition eq_str (v : value) (s : string) : bool :=
  match v with
  | VStr s' => String.eqb s' s
  | _ => false
  end.

(** Exceptions: the class name and the message. *)
Record exn : Type := mkExn { exc_class : string; exc_msg : string }.

Definition TypeError (msg : string) : exn := mkExn "TypeError" msg.
Definition IndexError (msg : string) : exn := mkExn "IndexError" msg.

Inductive Outcome (A : Type) : Type :=
| Returned (a : A)
| Raised (e : exn).
Arguments Returned {A} a.
Arguments Raised {A} e.

Definition chars (s : string) : list value :=
  map (fun c => VStr (String c EmptyString)) (list_ascii_of_string s).

(** [for x in v]: lists, strings and dictionaries iterate, anything else is
    a [TypeError].  A number is a rational here, an [int] and a [float]
    alike, so the message names [float] also where Python would name
    [int]; the class of the exception is Python's in both cases. *)
Definition iter (v : value) : Outcome (list value) :=
  match v with
  | VList l => Returned l
  | VStr s => Returned (chars s)
  | VDict d => Returned (map (fun kv => VStr (fst kv)) d)
  | VNone => Raised (TypeError "'NoneType' object is not iterable")
  | VBool _ => Raised (TypeError "'bool' object is not iterable")
  | VNum _ => Raised (TypeError "'float' object is not iterable")
  | VResult _ => Raised (TypeError "'AgentResult' object is not iterable")
  end.

(** [l[i]] on a list. *)
Definition index {A : Type} (l : list A) (i : nat) : Outcome A :=
  match nth_error l i with
  | Some a => Returned a
  | None => Raised (IndexError "list index out of range")
  end.

End Py.
Import Py.

(** ** Computations that may raise and that write as they go *)

Module Eff.

(** What a computation writes: elapsed seconds, or dispatch events. *)
Class Monoid (W : Type) : Type := { mempty : W; mappend : W -> W -> W }.

#[global] Instance Monoid_seconds : Monoid Q :=
  {| mempty := 0%Q; mappend := Qplus |}.

#[global] Instance Monoid_list (E : Type) : Monoid (list E) :=
  {| mempty := []; mappend := @app E |}.

Definition M (W A : Type) : Type := (W * Outcome A)%type.

Definition written {W A} (m : M W A) : W := fst m.
Definition outcome {W A} (m : M W A) : Outcome A := snd m.

Definition ret {W} `{Monoid W} {A} (a : A) : M W A := (mempty, Returned a).

(** A raised exception skips the rest; what was written before stays. *)
Definition bind {W} `{Monoid W} {A B} (m : M W A) (f : A -> M W B) : M W B :=
  match snd m with
  | Returned a => (mappend (fst m) (fst (f a)), snd (f a))
  | Raised e => (fst m, Raised e)
  end.

Definition lift {W} `{Monoid W} {A} (o : Outcome A) : M W A := (mempty, o).

End Eff.
Import Eff.

Declare Scope eff_scope.
Delimit Scope eff_scope with eff.
Notation "x <- m ;; k" := (bind m (fun x => k))
  (at level 61, m at next level, right associativity) : eff_scope.
Local Open Scope eff_scope.

(** ** The agent framework (product specification, 3.2.1) *)

Record AgentTask : Type := mkAgentTask {
  task_id : string;
  task_type : string;
  input_data : dict;
  priority : Z;
  timeout : Z
}.

(** The dataclass constructor with its defaults [priority = 1] and
    [timeout = 300]. *)
Definition AgentTask_new (task_id task_type : string) (input_data : dict)
  : AgentTask :=
  mkAgentTask task_id task_type input_data 1 300.

(** An awaited coroutine of an agent: its outcome and the seconds it took. *)
Definition Coro (A : Type) : Type := M Q A.

(** [BaseAgent.execute] is abstract: an agent is whatever maps a task to a
    coroutine yielding an [AgentResult].  What else an agent depends on (its
    data sources, its language model) is fixed for a run: it is part of the
    agent. *)
Definition BaseAgent : Type := AgentTask -> Coro AgentResult.

(** ** The core agents (product specification, 3.2.2) *)

(** What the agents call and the sources do not define: the three fetchers of
    the data collector, the helpers and the language model of the
    fundamental agent, and the four agent classes that are only named in
    [AnalysisOrchestrator.__init__].  A synchronous helper returns or raises;
    an awaited one is a coroutine. *)
Record Env : Type := mkEnv {
  _fetch_price_data : value -> Coro value;
  _fetch_financial_data : value -> Coro value;
  _fetch_news_data : value -> Coro value;
  _build_analysis_prompt : value -> Outcome value;
  llm_apredict : value -> Coro value;
  _calculate_financial_ratios : value -> Outcome value;
  _calculate_fundamental_score : value -> Outcome value;
  TechnicalAnalysisAgent_execute : BaseAgent;
  SentimentAnalysisAgent_execute : BaseAgent;
  RiskAssessmentAgent_execute : BaseAgent;
  StrategyGenerationAgent_execute : BaseAgent
}.

Definition default_data_types : value :=
  VList [VStr "price"; VStr "financial"; VStr "news"].

(** The body of [for data_type in data_types] in
    [DataCollectionAgent.execute], from the remaining [data_types] and the
    [result_data] filled so far. *)
Fixpoint collect (env : Env) (stock_code : value) (data_types : list value)
         (result_data : dict) : Coro dict :=
  match data_types with
  | [] => ret result_data
  | data_type :: rest =>
      if eq_str data_type "price" then
        v <- _fetch_price_data env stock_code ;;
        collect env stock_code rest (dict_set result_data "price_data" v)
      else if eq_str data_type "financial" then
        v <- _fetch_financial_data env stock_code ;;
        collect env stock_code rest (dict_set result_data "financial_data" v)
      else if eq_str data_type "news" then
        v <- _fetch_news_data env stock_code ;;
        collect env stock_code rest (dict_set result_data "news_data" v)
      else collect env stock_code rest result_data
  end.

Definition DataCollectionAgent_execute (env : Env) : BaseAgent :=
  fun task =>
    let stock_code := dict_get (input_data task) "stock_code" VNone in
    let data_types := dict_get (input_data task) "data_types" default_data_types in
    types <- lift (iter data_types) ;;
    result_data <- collect env stock_code types [] ;;
    ret (AgentResult_new (task_id task) true result_data).

Definition FundamentalAnalysisAgent_execute (env : Env) : BaseAgent :=
  fun task =>
    let financial_data := dict_get (input_data task) "financial_data" VNone in
    analysis_prompt <- lift (_build_analysis_prompt env financial_data) ;;
    analysis_result <- llm_apredict env analysis_prompt ;;
    ratios <- lift (_calculate_financial_ratios env financial_data) ;;
    score <- lift (_calculate_fundamental_score env ratios) ;;
    ret (AgentResult_new (task_id task) true
           [("analysis", analysis_result);
            ("financial_ratios", ratios);
            ("score", score)]).

(** ** The analysis workflow (product specification, 4.2.2) *)

(** [self.agents]: one agent under each of the six keys. *)
Record Agents : Type := mkAgents {
  data_collector : BaseAgent;
  fundamental : BaseAgent;
  technical : BaseAgent;
  sentiment : BaseAgent;
  risk : BaseAgent;
  strategy : BaseAgent
}.

(** [AnalysisOrchestrator.__init__]. *)
Definition AnalysisOrchestrator_init (env : Env) : Agents :=
  {| data_collector := DataCollectionAgent_execute env;
     fundamental := FundamentalAnalysisAgent_execute env;
     technical := TechnicalAnalysisAgent_execute env;
     sentiment := SentimentAnalysisAgent_execute env;
     risk := RiskAssessmentAgent_execute env;
     strategy := StrategyGenerationAgent_execute env |}.

(** What an observer of a run sees of a task.  [Start t]: the orchestrator
    hands the coroutine of [t] to the event loop, by awaiting it or by
    passing it to [asyncio.gather], which makes a task of it.  [Settle t]:
    the coroutine has returned or raised.  When, between the two, the
    coroutine runs its steps is not recorded. *)
Inductive event : Type :=
| Start (t : AgentTask)
| Settle (t : AgentTask).

(** The orchestrator's coroutine: its outcome and the events of its run. *)
Definition Run (A : Type) : Type := M (list event) A.

(** A coroutine object, created by calling [execute] and not yet awaited. *)
Record Coroutine : Type := mkCoroutine {
  co_task : AgentTask;
  co_run : Coro AgentResult
}.

Definition execute (agent : BaseAgent) (task : AgentTask) : Coroutine :=
  {| co_task := task; co_run := agent task |}.

(** [await c]: the coroutine runs to its end before the caller goes on. *)
Definition await (c : Coroutine) : Run AgentResult :=
  ([Start (co_task c); Settle (co_task c)], outcome (co_run c)).

(** The order in which [n] concurrently running coroutines settle.  The event
    loop decides it; [order] is its choice, read leniently: indices out of
    range and repetitions are dropped, coroutines it does not mention settle
    last, in the order of their creation. *)
Fixpoint first_occurrences (seen l : list nat) : list nat :=
  match l with
  | [] => []
  | i :: rest =>
      if existsb (Nat.eqb i) seen then first_occurrences seen rest
      else i :: first_occurrences (i :: seen) rest
  end.

Definition completion (n : nat) (order : list nat) : list nat :=
  first_occurrences [] (filter (fun i => Nat.ltb i n) order ++ seq 0 n).

(** The coroutines settle one after the other; the first that raises ends the
    wait with its exception. *)
Fixpoint settle (cs : list Coroutine) (order : list nat)
  : list event * option exn :=
  match order with
  | [] => ([], None)
  | i :: rest =>
      match nth_error cs i with
      | None => settle cs rest
      | Some c =>
          match outcome (co_run c) with
          | Raised e => ([Settle (co_task c)], Some e)
          | Returned _ =>
              let '(evs, fault) := settle cs rest in
              (Settle (co_task c) :: evs, fault)
          end
      end
  end.

(** The results in the order of the awaitables. *)
Fixpoint results (cs : list Coroutine) : Outcome (list AgentResult) :=
  match cs with
  | [] => Returned []
  | c :: rest =>
      match outcome (co_run c), results rest with
      | Returned r, Returned rs => Returned (r :: rs)
      | Raised e, _ => Raised e
      | _, Raised e => Raised e
      end
  end.

(** [asyncio.gather] over the coroutines [cs], with [return_exceptions] left
    at [False]: all the coroutines are handed to the event loop, in the order
    of the arguments, before any of them runs; the first exception raised is
    the one propagated; otherwise the results come back in the order of the
    arguments, whatever the order of completion.  The log of a gather that
    raises ends with the settling that decides it: the other coroutines are
    not cancelled, and what they do from then on, before or after the caller
    resumes, is not recorded. *)
Definition gather (order : list nat) (cs : list Coroutine)
  : Run (list AgentResult) :=
  let starts := map (fun c => Start (co_task c)) cs in
  let '(settles, fault) := settle cs (completion (length cs) order) in
  (starts ++ settles,
   match fault with
   | Some e => Raised e
   | None => results cs
   end).

Definition data_task (stock_code : string) : AgentTask :=
  AgentTask_new ("data_" ++ stock_code) "data_collection"
    [("stock_code", VStr stock_code)].

Definition fundamental_task (stock_code : string) (data_result : AgentResult)
  : AgentTask :=
  AgentTask_new ("fundamental_" ++ stock_code) "fundamental_analysis"
    (data data_result).

Definition technical_task (stock_code : string) (data_result : AgentResult)
  : AgentTask :=
  AgentTask_new ("technical_" ++ stock_code) "technical_analysis"
    (data data_result).

Definition sentiment_task (stock_code : string) (data_result : AgentResult)
  : AgentTask :=
  AgentTask_new ("sentiment_" ++ stock_code) "sentiment_analysis"
    (data data_result).

Definition risk_task (stock_code : string) (analysis_results : list AgentResult)
           (user_profile : dict) : AgentTask :=
  AgentTask_new ("risk_" ++ stock_code) "risk_assessment"
    [("analysis_results", VList (map VResult analysis_results));
     ("user_profile", VDict user_profile)].

Definition strategy_task (stock_code : string)
           (analysis_results : list AgentResult) (risk_result : AgentResult)
           (user_profile : dict) : AgentTask :=
  AgentTask_new ("strategy_" ++ stock_code) "strategy_generation"
    [("analysis_results", VList (map VResult analysis_results));
     ("risk_assessment", VDict (data risk_result));
     ("user_profile", VDict user_profile)].

(** The dictionary [analyze_stock] returns; [now] is
    [datetime.now().isoformat()]. *)
Definition report (stock_code : string) (analysis_results : list AgentResult)
           (risk_result strategy_result : AgentResult) (now : string)
  : Run dict :=
  r0 <- lift (index analysis_results 0) ;;
  r1 <- lift (index analysis_results 1) ;;
  r2 <- lift (index analysis_results 2) ;;
  ret [("stock_code", VStr stock_code);
       ("analysis", VDict [("fundamental", VDict (data r0));
                           ("technical", VDict (data r1));
                           ("sentiment", VDict (data r2))]);
       ("risk_assessment", VDict (data risk_result));
       ("investment_strategy", VDict (data strategy_result));
       ("timestamp", VStr now)].

(** [AnalysisOrchestrator.analyze_stock].  Besides the two arguments of the
    method, a run depends on the event loop ([order], for the three
    concurrent analyses) and on the clock ([now]). *)
Definition analyze_stock (agents : Agents) (order : list nat) (now : string)
           (stock_code : string) (user_profile : dict) : Run dict :=
  data_result <- await (execute (data_collector agents) (data_task stock_code)) ;;
  let analysis_tasks :=
    [execute (fundamental agents) (fundamental_task stock_code data_result);
     execute (technical agents) (technical_task stock_code data_result);
     execute (sentiment agents) (sentiment_task stock_code data_result)] in
  analysis_results <- gather order analysis_tasks ;;
  risk_result <-
    await (execute (risk agents)
             (risk_task stock_code analysis_results user_profile)) ;;
  strategy_result <-
    await (execute (strategy agents)
             (strategy_task stock_code analysis_results risk_result
                user_profile)) ;;
  report stock_code analysis_results risk_result strategy_result now.

(** ** The front end's types (types/index.ts) *)

Module Types.

Inductive AnalysisType : Type := fundamental | technical | sentiment.

Record StockAnalysisRequest : Type := mkStockAnalysisRequest {
  stock_code : string;
  analysis_types : list AnalysisType
}.

Inductive Recommendation : Type := buy | hold | sell.

Record StrategyResult : Type := mkStrategyResult {
  recommendation : Recommendation;
  confidence : Q;
  target_price : Q;
  stop_loss : Q;
  position_size : Q;
  reasoning : string
}.

Definition Recommendation_str (r : Recommendation) : string :=
  match r with
  | buy => "buy"
  | hold => "hold"
  | sell => "sell"
  end.

(** A [StrategyResult] as the JSON object that travels, key by key. *)
Definition StrategyResult_json (s : StrategyResult) : dict :=
  [("recommendation", VStr (Recommendation_str (recommendation s)));
   ("confidence", VNum (confidence s));
   ("target_price", VNum (target_price s));
   ("stop_loss", VNum (stop_loss s));
   ("position_size", VNum (position_size s));
   ("reasoning", VStr (reasoning s))].

(** The [task_type] the orchestrator gives to the task of an analysis. *)
Definition task_type_of (k : AnalysisType) : string :=
  match k with
  | fundamental => "fundamental_analysis"
  | technical => "technical_analysis"
  | sentiment => "sentiment_analysis"
  end.

End Types.

(** ** Reading a run *)

(** A task failed when its coroutine raised or its result says so. *)
Definition task_failed (o : Outcome AgentResult) : bool :=
  match o with
  | Raised _ => true
  | Returned r => negb (success r)
  end.

Definition starts (ty : string) (e : event) : bool :=
  match e with
  | Start t => String.eqb (task_type t) ty
  | Settle _ => false
  end.

Definition settles (ty : string) (e : event) : bool :=
  match e with
  | Start _ => false
  | Settle t => String.eqb (task_type t) ty
  end.

(** Whether a task of kind [ty] was dispatched in the run. *)
Definition dispatched (ty : string) (log : list event) : bool :=
  existsb (starts ty) log.

(** In [log], no task of kind [b] starts unless a task of kind [a] has
    settled earlier. *)
Definition settles_before (a b : string) (log : list event) : Prop :=
  forall l1 e l2,
    log = l1 ++ e :: l2 -> starts b e = true -> existsb (settles a) l1 = true.

(** The same, decided by one pass over the log; [seen] tells whether a task
    of kind [a] has settled so far. *)
Fixpoint settles_beforeb (a b : string) (seen : bool) (log : list event)
  : bool :=
  match log with
  | [] => true
  | e :: rest =>
      (negb (starts b e) || seen)
      && settles_beforeb a b (seen || settles a e) rest
  end.

(** The entries of the returned dictionary that make the recommendation. *)
Definition investment_strategy (d : dict) : option value :=
  dict_lookup d "investment_strategy".

Definition strategy_field (k : string) (d : dict) : option value :=
  match investment_strategy d with
  | Some (VDict s) => dict_lookup s k
  | _ => None
  end.

Definition action_of (d : dict) : option value := strategy_field "recommendation" d.
Definition confidence_of (d : dict) : option value := strategy_field "confidence" d.
Definition target_price_of (d : dict) : option value := strategy_field "target_price" d.
Definition stop_loss_of (d : dict) : option value := strategy_field "stop_loss" d.

(** ** The events and the result of a run *)

Definition data_events (stock_code : string) : list event :=
  [Start (data_task stock_code); Settle (data_task stock_code)].

Definition analysis_starts (stock_code : string) (data_result : AgentResult)
  : list event :=
  [Start (fundamental_task stock_code data_result);
   Start (technical_task stock_code data_result);
   Start (sentiment_task stock_code data_result)].

Definition analysis_settles (stock_code : string) (data_result : AgentResult)
  : list event :=
  [Settle (fundamental_task stock_code data_result);
   Settle (technical_task stock_code data_result);
   Settle (sentiment_task stock_code data_result)].

Definition risk_events (stock_code : string) (user_profile : dict)
           (analysis_results : list AgentResult) : list event :=
  [Start (risk_task stock_code analysis_results user_profile);
   Settle (risk_task stock_code analysis_results user_profile)].

Definition strategy_events (stock_code : string) (user_profile : dict)
           (analysis_results : list AgentResult) (risk_result : AgentResult)
  : list event :=
  [Start (strategy_task stock_code analysis_results risk_result user_profile);
   Settle (strategy_task stock_code analysis_results risk_result user_profile)].

(** The dictionary returned from the results of the six tasks. *)
Definition returned_dict (now stock_code : string)
           (rf rt rs rr rg : AgentResult) : dict :=
  [("stock_code", VStr stock_code);
   ("analysis", VDict [("fundamental", VDict (data rf));
                       ("technical", VDict (data rt));
                       ("sentiment", VDict (data rs))]);
   ("risk_assessment", VDict (data rr));
   ("investment_strategy", VDict (data rg));
   ("timestamp", VStr now)].

(** The five ways in which a run can end: at the data collection, inside
    [gather], at the risk assessment, at the strategy generation, or by
    returning. *)
Inductive run_case (agents : Agents) (order : list nat) (now : string)
          (stock_code : string) (user_profile : dict) : Prop :=
| data_collection_raised (e : exn) :
    outcome (data_collector agents (data_task stock_code)) = Raised e ->
    analyze_stock agents order now stock_code user_profile
    = (data_events stock_code, Raised e) ->
    run_case agents order now stock_code user_profile
| analysis_raised (rd : AgentResult) (ss : list event) (e : exn) :
    outcome (data_collector agents (data_task stock_code)) = Returned rd ->
    outcome (fundamental agents (fundamental_task stock_code rd)) = Raised e
    \/ outcome (technical agents (technical_task stock_code rd)) = Raised e
    \/ outcome (sentiment agents (sentiment_task stock_code rd)) = Raised e ->
    incl ss (analysis_settles stock_code rd) ->
    analyze_stock agents order now stock_code user_profile
    = (data_events stock_code ++ analysis_starts stock_code rd ++ ss,
       Raised e) ->
    run_case agents order now stock_code user_profile
| risk_raised (rd rf rt rs : AgentResult) (ss : list event) (e : exn) :
    outcome (data_collector agents (data_task stock_code)) = Returned rd ->
    outcome (fundamental agents (fundamental_task stock_code rd)) = Returned rf ->
    outcome (technical agents (technical_task stock_code rd)) = Returned rt ->
    outcome (sentiment agents (sentiment_task stock_code rd)) = Returned rs ->
    outcome (risk agents (risk_task stock_code [rf; rt; rs] user_profile))
    = Raised e ->
    Permutation ss (analysis_settles stock_code rd) ->
    analyze_stock agents order now stock_code user_profile
    = (data_events stock_code ++ analysis_starts stock_code rd ++ ss
       ++ risk_events stock_code user_profile [rf; rt; rs],
       Raised e) ->
    run_case agents order now stock_code user_profile
| strategy_raised (rd rf rt rs rr : AgentResult) (ss : list event) (e : exn) :
    outcome (data_collector agents (data_task stock_code)) = Returned rd ->
    outcome (fundamental agents (fundamental_task stock_code rd)) = Returned rf ->
    outcome (technical agents (technical_task stock_code rd)) = Returned rt ->
    outcome (sentiment agents (sentiment_task stock_code rd)) = Returned rs ->
    outcome (risk agents (risk_task stock_code [rf; rt; rs] user_profile))
    = Returned rr ->
    outcome (strategy agents
               (strategy_task stock_code [rf; rt; rs] rr user_profile))
    = Raised e ->
    Permutation ss (analysis_settles stock_code rd) ->
    analyze_stock agents order now stock_code user_profile
    = (data_events stock_code ++ analysis_starts stock_code rd ++ ss
       ++ risk_events stock_code user_profile [rf; rt; rs]
       ++ strategy_events stock_code user_profile [rf; rt; rs] rr,
       Raised e) ->
    run_case agents order now stock_code user_profile
| all_returned (rd rf rt rs rr rg : AgentResult) (ss : list event) :
    outcome (data_collector agents (data_task stock_code)) = Returned rd ->
    outcome (fundamental agents (fundamental_task stock_code rd)) = Returned rf ->
    outcome (technical agents (technical_task stock_code rd)) = Returned rt ->
    outcome (sentiment agents (sentiment_task stock_code rd)) = Returned rs ->
    outcome (risk agents (risk_task stock_code [rf; rt; rs] user_profile))
    = Returned rr ->
    outcome (strategy agents
               (strategy_task stock_code [rf; rt; rs] rr user_profile))
    = Returned rg ->
    Permutation ss (analysis_settles stock_code rd) ->
    analyze_stock agents order now stock_code user_profile
    = (data_events stock_code ++ analysis_starts stock_code rd ++ ss
       ++ risk_events stock_code user_profile [rf; rt; rs]
       ++ strategy_events stock_code user_profile [rf; rt; rs] rr,
       Returned (returned_dict now stock_code rf rt rs rr rg)) ->
    run_case agents order now stock_code user_profile.

(** ** What the collaborators do *)

(** The three fetchers return on [stock_code]. *)
Definition fetchers_return (env : Env) (stock_code : value) : Prop :=
  (exists v, outcome (_fetch_price_data env stock_code) = Returned v)
  /\ (exists v, outcome (_fetch_financial_data env stock_code) = Returned v)
  /\ (exists v, outcome (_fetch_news_data env stock_code) = Returned v).

(** One of the three fetchers raises [e] on [stock_code]. *)
Definition fetcher_raises (env : Env) (stock_code : value) (e : exn) : Prop :=
  outcome (_fetch_price_data env stock_code) = Raised e
  \/ outcome (_fetch_financial_data env stock_code) = Raised e
  \/ outcome (_fetch_news_data env stock_code) = Raised e.

(** One of the calls of [FundamentalAnalysisAgent.execute] raises [e] on the
    task's [financial_data]. *)
Definition analysis_step_raises (env : Env) (financial_data : value) (e : exn)
  : Prop :=
  _build_analysis_prompt env financial_data = Raised e
  \/ (exists prompt,
         _build_analysis_prompt env financial_data = Returned prompt
         /\ outcome (llm_apredict env prompt) = Raised e)
  \/ _calculate_financial_ratios env financial_data = Raised e
  \/ (exists ratios,
         _calculate_financial_ratios env financial_data = Returned ratios
         /\ _calculate_fundamental_score env ratios = Raised e).

(** ** The completion orders of three coroutines *)

(** The six orders in which three coroutines can settle. *)
Definition orders3 : list (list nat) :=
  [[0; 1; 2]; [0; 2; 1]; [1; 0; 2]; [1; 2; 0]; [2; 0; 1]; [2; 1; 0]]%nat.

(** ** What the spec asks and what the code does *)

(** The confidence the spec asks for: the strategy's, times 0.8 for each
    failed analysis. *)
Definition penalised_confidence (confidence : Q) (failed : nat) : Q :=
  (confidence * (4 # 5) ^ Z.of_nat failed)%Q.

(** The analyses, among the gathered ones, that report a failure. *)
Definition failed_analyses (analysis_results : list AgentResult) : nat :=
  length (filter (fun r => negb (success r)) analysis_results).

(** What [analyze_stock] does with the three analyses, once the data
    collector has returned [rd]. *)
Definition partial_failure_behaviour
           (agents : Agents) (order : list nat) (now : string)
           (stock_code : string) (user_profile : dict) (rd : AgentResult)
  : Prop :=
  let run := analyze_stock agents order now stock_code user_profile in
  let f := outcome (fundamental agents (fundamental_task stock_code rd)) in
  let t := outcome (technical agents (technical_task stock_code rd)) in
  let s := outcome (sentiment agents (sentiment_task stock_code rd)) in
  ((exists e, f = Raised e \/ t = Raised e \/ s = Raised e) ->
   (exists e, outcome run = Raised e
              /\ (f = Raised e \/ t = Raised e \/ s = Raised e))
   /\ dispatched "risk_assessment" (written run) = false
   /\ dispatched "strategy_generation" (written run) = false)
  /\ (forall rf rt rs,
         f = Returned rf -> t = Returned rt -> s = Returned rs ->
         In (Start (risk_task stock_code [rf; rt; rs] user_profile))
            (written run)
         /\ forall rr rg,
             outcome (risk agents
                        (risk_task stock_code [rf; rt; rs] user_profile))
             = Returned rr ->
             outcome (strategy agents
                        (strategy_task stock_code [rf; rt; rs] rr user_profile))
             = Returned rg ->
             outcome run
             = Returned (returned_dict now stock_code rf rt rs rr rg)).

(** ** A sample environment

    Every fetch takes two seconds, the language model three; the agents that
    the sources only name answer with the payloads of the API example of the
    product specification (5.1.3). *)

Module Sample.

Definition took {A} (seconds : Q) (a : A) : Coro A := (seconds, Returned a).
Definition broke {A} (seconds : Q) (e : exn) : Coro A := (seconds, Raised e).

Definition strategy_output : Types.StrategyResult :=
  Types.mkStrategyResult Types.buy (3 # 4) (74 # 5) (56 # 5) (1 # 10)
    "fundamentals and trend agree".

Definition env : Env :=
  {| _fetch_price_data := fun _ => took 2 (VList [VNum 12; VNum 13]);
     _fetch_financial_data := fun _ => took 2 (VDict [("roe", VNum (79 # 5))]);
     _fetch_news_data := fun _ => took 2 (VList [VStr "earnings up"]);
     _build_analysis_prompt := fun v => Returned (VList [VStr "analyse"; v]);
     llm_apredict := fun _ => took 3 (VStr "sound fundamentals");
     _calculate_financial_ratios := fun v => Returned v;
     _calculate_fundamental_score := fun _ => Returned (VNum 85);
     TechnicalAnalysisAgent_execute := fun t =>
       took 1 (AgentResult_new (task_id t) true [("trend", VStr "bullish")]);
     SentimentAnalysisAgent_execute := fun t =>
       took 1 (AgentResult_new (task_id t) true [("score", VNum 72)]);
     RiskAssessmentAgent_execute := fun t =>
       took 1 (AgentResult_new (task_id t) true [("risk_level", VStr "medium")]);
     StrategyGenerationAgent_execute := fun t =>
       took 1 (AgentResult_new (task_id t) true
                 (Types.StrategyResult_json strategy_output)) |}.

Definition fault : exn := mkExn "ConnectionError" "market data source unreachable".

(** The price source is down. *)
Definition env_price_down : Env :=
  {| _fetch_price_data := fun _ => broke 2 fault;
     _fetch_financial_data := _fetch_financial_data env;
     _fetch_news_data := _fetch_news_data env;
     _build_analysis_prompt := _build_analysis_prompt env;
     llm_apredict := llm_apredict env;
     _calculate_financial_ratios := _calculate_financial_ratios env;
     _calculate_fundamental_score := _calculate_fundamental_score env;
     TechnicalAnalysisAgent_execute := TechnicalAnalysisAgent_execute env;
     SentimentAnalysisAgent_execute := SentimentAnalysisAgent_execute env;
     RiskAssessmentAgent_execute := RiskAssessmentAgent_execute env;
     StrategyGenerationAgent_execute := StrategyGenerationAgent_execute env |}.

(** The technical agent raises. *)
Definition env_technical_raises : Env :=
  {| _fetch_price_data := _fetch_price_data env;
     _fetch_financial_data := _fetch_financial_data env;
     _fetch_news_data := _fetch_news_data env;
     _build_analysis_prompt := _build_analysis_prompt env;
     llm_apredict := llm_apredict env;
     _calculate_financial_ratios := _calculate_financial_ratios env;
     _calculate_fundamental_score := _calculate_fundamental_score env;
     TechnicalAnalysisAgent_execute := fun _ =>
       broke 1 (mkExn "ValueError" "not enough price history");
     SentimentAnalysisAgent_execute := SentimentAnalysisAgent_execute env;
     RiskAssessmentAgent_execute := RiskAssessmentAgent_execute env;
     StrategyGenerationAgent_execute := StrategyGenerationAgent_execute env |}.

(** The sentiment agent reports a failure in its result. *)
Definition env_sentiment_fails : Env :=
  {| _fetch_price_data := _fetch_price_data env;
     _fetch_financial_data := _fetch_financial_data env;
     _fetch_news_data := _fetch_news_data env;
     _build_analysis_prompt := _build_analysis_prompt env;
     llm_apredict := llm_apredict env;
     _calculate_financial_ratios := _calculate_financial_ratios env;
     _calculate_fundamental_score := _calculate_fundamental_score env;
     TechnicalAnalysisAgent_execute := TechnicalAnalysisAgent_execute env;
     SentimentAnalysisAgent_execute := fun t =>
       took 45 (mkAgentResult (task_id t) false [] (Some "news feed timed out") 0);
     RiskAssessmentAgent_execute := RiskAssessmentAgent_execute env;
     StrategyGenerationAgent_execute := StrategyGenerationAgent_execute env |}.

Definition user_profile : dict :=
  [("risk_profile", VStr "moderate")].

Definition now : string := "2024-01-15T10:30:00".

(** A request for the technical analysis only. *)
Definition technical_only : Types.StockAnalysisRequest :=
  {| Types.stock_code := "000001";
     Types.analysis_types := [Types.technical] |}.

End Sample.

(** ** Reading what the data collector was asked for *)

(** The key under which [DataCollectionAgent.execute] stores the data of a
    requested type; [None] for a type that its [if]/[elif] chain lets
    through. *)
Definition data_key (data_type : value) : option string :=
  if eq_str data_type "price" then Some "price_data"
  else if eq_str data_type "financial" then Some "financial_data"
  else if eq_str data_type "news" then Some "news_data"
  else None.

Definition recognised (data_type : value) : bool :=
  match data_key data_type with
  | Some _ => true
  | None => false
  end.

(** The fetcher that fills a key. *)
Definition fetcher_of (env : Env) (key : string) : option (value -> Coro value) :=
  if String.eqb key "price_data" then Some (_fetch_price_data env)
  else if String.eqb key "financial_data" then Some (_fetch_financial_data env)
  else if String.eqb key "news_data" then Some (_fetch_news_data env)
  else None.

(** The three coroutines that [analyze_stock] hands to [gather]. *)
Definition analysis_coroutines (agents : Agents) (stock_code : string)
           (data_result : AgentResult) : list Coroutine :=
  [execute (fundamental agents) (fundamental_task stock_code data_result);
   execute (technical agents) (technical_task stock_code data_result);
   execute (sentiment agents) (sentiment_task stock_code data_result)].

(** The kinds of the tasks that start, and of those that settle, in a log,
    in the order in which they do. *)
Definition started_types (log : list event) : list string :=
  flat_map (fun e => match e with
                     | Start t => [task_type t]
                     | Settle _ => []
                     end) log.

Definition settled_types (log : list event) : list string :=
  flat_map (fun e => match e with
                     | Start _ => []
                     | Settle t => [task_type t]
                     end) log.

(** The six tasks of a run, from the results they are built from. *)
Definition run_tasks (stock_code : string) (user_profile : dict)
           (data_result : AgentResult) (analysis_results : list AgentResult)
           (risk_result : AgentResult) : list AgentTask :=
  [data_task stock_code;
   fundamental_task stock_code data_result;
   technical_task stock_code data_result;
   sentiment_task stock_code data_result;
   risk_task stock_code analysis_results user_profile;
   strategy_task stock_code analysis_results risk_result user_profile].

(** The six task kinds of the workflow. *)
Definition task_types : list string :=
  ["data_collection"; "fundamental_analysis"; "technical_analysis";
   "sentiment_analysis"; "risk_assessment"; "strategy_generation"].

(** ** More sample environments *)

Module Faulty.

(** The risk agent raises. *)
Definition env_risk_raises : Env :=
  {| _fetch_price_data := _fetch_price_data Sample.env;
     _fetch_financial_data := _fetch_financial_data Sample.env;
     _fetch_news_data := _fetch_news_data Sample.env;
     _build_analysis_prompt := _build_analysis_prompt Sample.env;
     llm_apredict := llm_apredict Sample.env;
     _calculate_financial_ratios := _calculate_financial_ratios Sample.env;
     _calculate_fundamental_score := _calculate_fundamental_score Sample.env;
     TechnicalAnalysisAgent_execute := TechnicalAnalysisAgent_execute Sample.env;
     SentimentAnalysisAgent_execute := SentimentAnalysisAgent_execute Sample.env;
     RiskAssessmentAgent_execute := fun _ =>
       Sample.broke 1 (mkExn "KeyError" "'volatility'");
     StrategyGenerationAgent_execute :=
       StrategyGenerationAgent_execute Sample.env |}.

Definition data_result : AgentResult :=
  AgentResult_new "data_000001" true
    [("price_data", VList [VNum 12; VNum 13]);
     ("financial_data", VDict [("roe", VNum (79 # 5))]);
     ("news_data", VList [VStr "earnings up"])].

End Faulty.

(** ** The front end: more types of types/index.ts

    One module for each interface, its fields under their names.  A
    [number] is a rational; a string is compared for equality only. *)

Module Ts.

Module User.
Record t : Type := mk {
  id : string;
  username : string;
  email : string;
  full_name : string;
  risk_profile : string;
  subscription_plan : string;
  created_at : string;
  last_login : option string
}.
End User.

Module InvestmentRecommendation.
Record t : Type := mk {
  id : string;
  symbol : string;
  stock_name : string;
  recommendation : string;
  confidence_score : Q;
  analysis_summary : string;
  key_findings : option (list string);
  risk_assessment : option string;
  created_at : string
}.
End InvestmentRecommendation.

Module Portfolio.
Record t : Type := mk {
  id : string;
  user_id : string;
  name : string;
  total_value : Q;
  cash_balance : Q;
  total_return : Q;
  total_return_percent : Q;
  created_at : string;
  updated_at : string
}.
End Portfolio.

Module Trade.
Record t : Type := mk {
  id : string;
  portfolio_id : string;
  symbol : string;
  stock_name : string;
  trade_type : string;
  shares : Q;
  price : Q;
  total_amount : Q;
  commission : Q;
  status : string;
  executed_at : option string;
  created_at : string
}.
End Trade.

Module Watchlist.
Record t : Type := mk {
  id : string;
  user_id : string;
  name : string;
  symbols : list string;
  created_at : string;
  updated_at : string
}.
End Watchlist.

(** A settled promise. *)
Inductive Settled (A : Type) : Type :=
| Fulfilled (a : A)
| Rejected (reason : string).
Arguments Fulfilled {A} a.
Arguments Rejected {A} reason.

(** [if (s)] on a string: only the empty string is falsy. *)
Definition truthy (s : string) : bool := negb (String.eqb s "").

End Ts.

(** ** The front end: the trade history page (pages/TradeHistory) *)

Module TradeHistory.

(** The callback of [trades.filter] in [filteredTrades]. *)
Definition keeps (statusFilter typeFilter : string) (trade : Ts.Trade.t)
  : bool :=
  if Ts.truthy statusFilter
     && negb (String.eqb (Ts.Trade.status trade) statusFilter)
  then false
  else if Ts.truthy typeFilter
          && negb (String.eqb (Ts.Trade.trade_type trade) typeFilter)
  then false
  else true.

Definition filteredTrades (statusFilter typeFilter : string)
           (trades : list Ts.Trade.t) : list Ts.Trade.t :=
  filter (keeps statusFilter typeFilter) trades.

End TradeHistory.

(** ** The front end: the watchlist panel (components/Trading/Watchlist) *)

Module WatchlistPanel.

(** The state of the component that [handleRemoveFromWatchlist] reads and
    sets. *)
Record State : Type := mkState {
  watchlists : list Ts.Watchlist.t;
  selectedWatchlist : option Ts.Watchlist.t
}.

(** [handleRemoveFromWatchlist(symbol)]; [removeFromWatchlist] is the call to
    the server, which answers with the updated watchlist or fails. *)
Definition handleRemoveFromWatchlist
           (removeFromWatchlist : string -> string -> Ts.Settled Ts.Watchlist.t)
           (st : State) (symbol : string) : State :=
  match selectedWatchlist st with
  | None => st
  | Some selected =>
      match removeFromWatchlist (Ts.Watchlist.id selected) symbol with
      | Ts.Fulfilled updated =>
          {| selectedWatchlist := Some updated;
             watchlists :=
               map (fun w =>
                      if String.eqb (Ts.Watchlist.id w) (Ts.Watchlist.id updated)
                      then updated else w)
                   (watchlists st) |}
      | Ts.Rejected _ => st
      end
  end.

End WatchlistPanel.

(** ** The front end: the dashboard (pages/Dashboard) *)

Module Dashboard.

Record State : Type := mkState {
  recentAnalyses : list Ts.InvestmentRecommendation.t;
  portfolios : list Ts.Portfolio.t;
  isLoading : bool
}.

(** [p.catch(() => [])]. *)
Definition catch_empty {A} (p : Ts.Settled (list A)) : Ts.Settled (list A) :=
  match p with
  | Ts.Fulfilled l => Ts.Fulfilled l
  | Ts.Rejected _ => Ts.Fulfilled []
  end.

(** [Promise.all] of two promises. *)
Definition all2 {A B} (p : Ts.Settled A) (q : Ts.Settled B)
  : Ts.Settled (A * B) :=
  match p, q with
  | Ts.Fulfilled a, Ts.Fulfilled b => Ts.Fulfilled (a, b)
  | Ts.Rejected r, _ => Ts.Rejected r
  | _, Ts.Rejected r => Ts.Rejected r
  end.

(** [loadDashboardData], from how the two requests settle. *)
Definition loadDashboardData
           (getHistory : Ts.Settled (list Ts.InvestmentRecommendation.t))
           (getPortfolios : Ts.Settled (list Ts.Portfolio.t))
           (st : State) : State :=
  match all2 getHistory (catch_empty getPortfolios) with
  | Ts.Fulfilled (analyses, portfoliosData) =>
      {| recentAnalyses := firstn 5 analyses;
         portfolios := portfoliosData;
         isLoading := false |}
  | Ts.Rejected _ =>
      {| recentAnalyses := recentAnalyses st;
         portfolios := portfolios st;
         isLoading := false |}
  end.

End Dashboard.

(** ** The front end: routes and navigation (App, components/Layout) *)

Module App.

(** What [useAuth] gives to the routes. *)
Record Auth : Type := mkAuth {
  user : option Ts.User.t;
  isLoading : bool
}.

Inductive page : Type :=
| LoginForm | RegisterForm | Dashboard | Analyze | Portfolio | Trading
| TradeHistory | History | Profile.

(** What a route element renders. *)
Inductive view : Type :=
| Loading
| Show (children : page)
| Navigate (to : string).

Definition ProtectedRoute (auth : Auth) (children : page) : view :=
  if isLoading auth then Loading
  else match user auth with
       | Some _ => Show children
       | None => Navigate "/login"
       end.

Definition PublicRoute (auth : Auth) (children : page) : view :=
  if isLoading auth then Loading
  else match user auth with
       | None => Show children
       | Some _ => Navigate "/"
       end.

Inductive guard : Type := Protected | Public.

Record Route : Type := mkRoute {
  path : string;
  wrapper : guard;
  element : page
}.

(** The [Route]s of [AppContent], in their order. *)
Definition routes : list Route :=
  [mkRoute "/login" Public LoginForm;
   mkRoute "/register" Public RegisterForm;
   mkRoute "/" Protected Dashboard;
   mkRoute "/analyze" Protected Analyze;
   mkRoute "/portfolio" Protected Portfolio;
   mkRoute "/trading" Protected Trading;
   mkRoute "/trade-history" Protected TradeHistory;
   mkRoute "/history" Protected History;
   mkRoute "/profile" Protected Profile].

Definition render (auth : Auth) (r : Route) : view :=
  match wrapper r with
  | Protected => ProtectedRoute auth (element r)
  | Public => PublicRoute auth (element r)
  end.

(** The route of a location that is the path of a route. *)
Definition route_at (location : string) : option Route :=
  find (fun r => String.eqb (path r) location) routes.

(** The paths of [navItems] in [Navigation]. *)
Definition navItems : list string :=
  ["/"; "/analyze"; "/portfolio"; "/trading"; "/trade-history"; "/history";
   "/profile"].

(** [{user && <Header />}] and [{user && <Navigation />}]. *)
Definition shows_navigation (auth : Auth) : bool :=
  match user auth with
  | Some _ => true
  | None => false
  end.

End App.

(** ** The front end: the HTTP client (services/api) *)

Module Api.

(** [localStorage]: keys and values, a key at most once. *)
Definition Storage : Type := list (string * string).

Fixpoint getItem (storage : Storage) (key : string) : option string :=
  match storage with
  | [] => None
  | (k, v) :: rest => if String.eqb k key then Some v else getItem rest key
  end.

Definition removeItem (storage : Storage) (key : string) : Storage :=
  filter (fun kv => negb (String.eqb (fst kv) key)) storage.

(** What the interceptors touch of the browser. *)
Record Browser : Type := mkBrowser {
  localStorage : Storage;
  href : string
}.

(** A request configuration: its headers, and the rest. *)
Record Config : Type := mkConfig {
  url : string;
  headers : list (string * string)
}.

Fixpoint set_header (hs : list (string * string)) (name v : string)
  : list (string * string) :=
  match hs with
  | [] => [(name, v)]
  | (n, v') :: rest =>
      if String.eqb n name then (n, v) :: rest
      else (n, v') :: set_header rest name v
  end.

Fixpoint header (hs : list (string * string)) (name : string) : option string :=
  match hs with
  | [] => None
  | (n, v) :: rest => if String.eqb n name then Some v else header rest name
  end.

(** The request interceptor. *)
Definition on_request (b : Browser) (config : Config) : Config :=
  match getItem (localStorage b) "auth_token" with
  | Some token =>
      if Ts.truthy token
      then {| url := url config;
              headers := set_header (headers config) "Authorization"
                           ("Bearer " ++ token) |}
      else config
  | None => config
  end.

(** An error of a request: the status of the response, when there is one. *)
Record AxiosError : Type := mkAxiosError {
  message : string;
  response_status : option Z
}.

(** The response interceptor on an error: the browser after it, and the
    error with which it rejects. *)
Definition on_response_error (b : Browser) (error : AxiosError)
  : Browser * AxiosError :=
  match response_status error with
  | Some 401%Z =>
      ({| localStorage := removeItem (localStorage b) "auth_token";
          href := "/login" |},
       error)
  | _ => (b, error)
  end.

End Api.

(** ** A sample browser *)

Module Visit.

Definition browser : Api.Browser :=
  {| Api.localStorage := [("theme", "dark"); ("auth_token", "abc.def.ghi")];
     Api.href := "/portfolio" |}.

Definition unauthorized : Api.AxiosError :=
  {| Api.message := "Request failed with status code 401";
     Api.response_status := Some 401%Z |}.

Definition request : Api.Config :=
  {| Api.url := "/trading/portfolios";
     Api.headers := [("Content-Type", "application/json")] |}.

End Visit.

(** * Facts *)

(** ** The completion order *)

Lemma existsb_eqb_In (i : nat) (seen : list nat) :
  existsb (Nat.eqb i) seen = true <-> In i seen.
Proof.
  rewrite existsb_exists. split.
  - intros [x [Hx Hix]]. apply Nat.eqb_eq in Hix. now subst.
  - intros H. exists i. split; [assumption | apply Nat.eqb_refl].
Qed.

Lemma first_occurrences_In (l seen : list nat) (i : nat) :
  In i (first_occurrences seen l) <-> In i l /\ ~ In i seen.
Proof.
  revert seen. induction l as [|a l IH]; intros seen; simpl.
  - tauto.
  - destruct (existsb (Nat.eqb a) seen) eqn:E.
    + apply existsb_eqb_In in E. rewrite IH. split.
      * tauto.
      * intros [[Ha | Hl] Hn]; [subst; contradiction | tauto].
    + assert (Ha : ~ In a seen).
      { intros H. apply existsb_eqb_In in H. congruence. }
      simpl. rewrite IH. simpl. split.
      * intros [Hia | [Hl Hn]]; [subst; tauto | tauto].
      * intros [[Hia | Hl] Hn]; [tauto |].
        destruct (Nat.eq_dec a i); [tauto | right; tauto].
Qed.

Lemma first_occurrences_NoDup (l seen : list nat) :
  NoDup (first_occurrences seen l).
Proof.
  revert seen. induction l as [|a l IH]; intros seen; simpl.
  - constructor.
  - destruct (existsb (Nat.eqb a) seen); [apply IH |].
    constructor; [| apply IH].
    rewrite first_occurrences_In. simpl. tauto.
Qed.

Lemma completion_In (n : nat) (order : list nat) (i : nat) :
  In i (completion n order) <-> i < n.
Proof.
  unfold completion. rewrite first_occurrences_In, in_app_iff, filter_In, in_seq.
  rewrite Nat.ltb_lt. simpl. lia.
Qed.

Lemma completion_NoDup (n : nat) (order : list nat) :
  NoDup (completion n order).
Proof. apply first_occurrences_NoDup. Qed.

(** Every choice of the event loop is an order of all the coroutines, and
    every such order is the choice of some event loop. *)
Lemma completion_permutation (n : nat) (order : list nat) :
  Permutation (completion n order) (seq 0 n).
Proof.
  apply NoDup_Permutation.
  - apply completion_NoDup.
  - apply seq_NoDup.
  - intros i. rewrite completion_In, in_seq. lia.
Qed.

Lemma first_occurrences_seen (l seen : list nat) :
  (forall i, In i l -> In i seen) -> first_occurrences seen l = [].
Proof.
  induction l as [|a l IH]; intros Hseen; simpl; [reflexivity |].
  rewrite (proj2 (existsb_eqb_In a seen)) by (apply Hseen; now left).
  apply IH. intros i Hi. apply Hseen. now right.
Qed.

Lemma first_occurrences_fresh (l l' : list nat) :
  forall seen,
    NoDup l -> (forall i, In i l -> ~ In i seen) ->
    first_occurrences seen (l ++ l')
    = l ++ first_occurrences (rev l ++ seen) l'.
Proof.
  induction l as [|a l IH]; intros seen Hnd Hfresh; simpl; [reflexivity |].
  inversion Hnd as [|? ? Ha Hnd']; subst.
  destruct (existsb (Nat.eqb a) seen) eqn:E.
  - apply existsb_eqb_In in E. exfalso. apply (Hfresh a); [now left | exact E].
  - rewrite IH; [now rewrite <- app_assoc | assumption |].
    intros i Hi [-> | Hs]; [contradiction |].
    apply (Hfresh i); [now right | exact Hs].
Qed.

Lemma completion_of_permutation (n : nat) (order : list nat) :
  Permutation order (seq 0 n) -> completion n order = order.
Proof.
  intros Hperm. unfold completion.
  assert (Hfilter : filter (fun i => Nat.ltb i n) order = order).
  { assert (Hlt : forall i, In i order -> Nat.ltb i n = true).
    { intros i Hi. apply Nat.ltb_lt.
      apply (Permutation_in _ Hperm), in_seq in Hi. lia. }
    clear Hperm. induction order as [|a l IH]; simpl; [reflexivity |].
    rewrite (Hlt a) by now left.
    f_equal. apply IH. intros i Hi. apply Hlt. now right. }
  rewrite Hfilter, first_occurrences_fresh.
  - rewrite first_occurrences_seen; [apply app_nil_r |].
    intros i Hi. rewrite in_app_iff. left. apply in_rev. rewrite rev_involutive.
    eapply Permutation_in; [apply Permutation_sym, Hperm | exact Hi].
  - eapply Permutation_NoDup; [apply Permutation_sym, Hperm | apply seq_NoDup].
  - intros i _ [].
Qed.

Lemma completion3 (order : list nat) : In (completion 3 order) orders3.
Proof.
  pose proof (completion_NoDup 3 order) as Hnd.
  pose proof (completion_In 3 order) as Hin.
  destruct (completion 3 order) as [|a [|b [|c [|d l]]]].
  - specialize (Hin 0). simpl in Hin. lia.
  - pose proof (Hin 0) as H0. pose proof (Hin 1) as H1. simpl in H0, H1. lia.
  - pose proof (Hin 0) as H0. pose proof (Hin 1) as H1.
    pose proof (Hin 2) as H2. simpl in H0, H1, H2. lia.
  - pose proof (proj1 (Hin a)) as Ha. pose proof (proj1 (Hin b)) as Hb.
    pose proof (proj1 (Hin c)) as Hc. simpl in Ha, Hb, Hc.
    inversion Hnd as [|? ? Hab Hnd']; subst.
    inversion Hnd' as [|? ? Hbc _]; subst.
    simpl in Hab, Hbc.
    assert (a < 3 /\ b < 3 /\ c < 3 /\ a <> b /\ a <> c /\ b <> c) as H
      by (repeat split; try lia; intros ->; tauto).
    unfold orders3. simpl.
    destruct H as (Ha' & Hb' & Hc' & Hab' & Hac' & Hbc').
    destruct a as [|[|[|a]]]; try lia;
      destruct b as [|[|[|b]]]; try lia;
      destruct c as [|[|[|c]]]; try lia; tauto.
  - exfalso.
    pose proof (proj1 (Hin a)) as Ha. pose proof (proj1 (Hin b)) as Hb.
    pose proof (proj1 (Hin c)) as Hc. pose proof (proj1 (Hin d)) as Hd.
    simpl in Ha, Hb, Hc, Hd.
    inversion Hnd as [|? ? Ha1 Hnd1]; subst.
    inversion Hnd1 as [|? ? Hb1 Hnd2]; subst.
    inversion Hnd2 as [|? ? Hc1 _]; subst.
    simpl in Ha1, Hb1, Hc1.
    assert (a <> b /\ a <> c /\ a <> d /\ b <> c /\ b <> d /\ c <> d) as H
      by (repeat split; intros ->; tauto).
    lia.
Qed.

(** ** Waiting for three coroutines *)

Arguments completion : simpl never.

(** Case analysis on the order in which three coroutines settle. *)
Ltac by_order order :=
  let H := fresh "Horder" in
  pose proof (completion3 order) as H;
  unfold orders3 in H; simpl in H;
  destruct H as [H | [H | [H | [H | [H | [H | []]]]]]];
  rewrite <- H; clear H.

Section Gather3.

Variables c0 c1 c2 : Coroutine.
Variable order : list nat.

Let starts3 : list event :=
  [Start (co_task c0); Start (co_task c1); Start (co_task c2)].
Let settles3 : list event :=
  [Settle (co_task c0); Settle (co_task c1); Settle (co_task c2)].

(** When the three return, [gather] returns their results in the order of
    the arguments, after each has settled, in some order. *)
Lemma gather3_returned (r0 r1 r2 : AgentResult) :
  outcome (co_run c0) = Returned r0 ->
  outcome (co_run c1) = Returned r1 ->
  outcome (co_run c2) = Returned r2 ->
  exists ss, Permutation ss settles3
             /\ gather order [c0; c1; c2] = (starts3 ++ ss, Returned [r0; r1; r2]).
Proof.
  intros H0 H1 H2. unfold gather, starts3, settles3. simpl length.
  by_order order; simpl; rewrite ?H0, ?H1, ?H2; simpl;
    eexists; (split; [| reflexivity]).
  - apply Permutation_refl.
  - apply perm_skip, perm_swap.
  - apply perm_swap.
  - apply Permutation_sym, (Permutation_cons_append [_; _]).
  - apply (Permutation_cons_append [_; _]).
  - apply Permutation_rev with (l := [_; _; _]).
Qed.

(** [gather] returns only when each of the three returned. *)
Lemma gather3_returned_inv (rs : list AgentResult) :
  outcome (gather order [c0; c1; c2]) = Returned rs ->
  exists r0 r1 r2,
    rs = [r0; r1; r2]
    /\ outcome (co_run c0) = Returned r0
    /\ outcome (co_run c1) = Returned r1
    /\ outcome (co_run c2) = Returned r2.
Proof.
  unfold gather. simpl length.
  destruct (outcome (co_run c0)) as [r0 | e0] eqn:H0;
    destruct (outcome (co_run c1)) as [r1 | e1] eqn:H1;
    destruct (outcome (co_run c2)) as [r2 | e2] eqn:H2;
    by_order order; simpl; rewrite ?H0, ?H1, ?H2; simpl;
    unfold outcome; simpl; intros H; try discriminate H;
    injection H as <-; exists r0, r1, r2; repeat split.
Qed.

(** When one of the three raises, [gather] raises the exception of one of
    them, and only tasks among the three have settled. *)
Lemma gather3_raised :
  (exists e, outcome (co_run c0) = Raised e
             \/ outcome (co_run c1) = Raised e
             \/ outcome (co_run c2) = Raised e) ->
  exists ss e,
    gather order [c0; c1; c2] = (starts3 ++ ss, Raised e)
    /\ incl ss settles3
    /\ (outcome (co_run c0) = Raised e
        \/ outcome (co_run c1) = Raised e
        \/ outcome (co_run c2) = Raised e).
Proof.
  intros [e He]. unfold gather, starts3, settles3. simpl length.
  destruct (outcome (co_run c0)) as [r0 | e0] eqn:H0;
    destruct (outcome (co_run c1)) as [r1 | e1] eqn:H1;
    destruct (outcome (co_run c2)) as [r2 | e2] eqn:H2;
    try (exfalso; destruct He as [He | [He | He]]; discriminate He);
    by_order order; simpl; rewrite ?H0, ?H1, ?H2; simpl;
    eexists; eexists;
    (split; [reflexivity | split; [| auto]]);
    intros x Hx; simpl in *; tauto.
Qed.

End Gather3.

(** ** The shape of a run *)

Arguments gather : simpl never.

Section Run.

Variable agents : Agents.
Variable order : list nat.
Variable now : string.
Variable stock_code : string.
Variable user_profile : dict.

Let run : Run dict := analyze_stock agents order now stock_code user_profile.

Let data_events : list event := data_events stock_code.

(** The data collector raises: the run ends there. *)
Lemma analyze_stock_data_raised (e : exn) :
  outcome (data_collector agents (data_task stock_code)) = Raised e ->
  run = (data_events, Raised e).
Proof.
  intros Hd. unfold run, analyze_stock, bind, await, execute. simpl.
  rewrite Hd. reflexivity.
Qed.

(** One of the three analyses raises: the run ends inside [gather]. *)
Lemma analyze_stock_analysis_raised (rd : AgentResult) :
  outcome (data_collector agents (data_task stock_code)) = Returned rd ->
  (exists e,
      outcome (fundamental agents (fundamental_task stock_code rd)) = Raised e
      \/ outcome (technical agents (technical_task stock_code rd)) = Raised e
      \/ outcome (sentiment agents (sentiment_task stock_code rd)) = Raised e) ->
  exists ss e,
    run = (data_events ++ analysis_starts stock_code rd ++ ss, Raised e)
    /\ incl ss (analysis_settles stock_code rd)
    /\ (outcome (fundamental agents (fundamental_task stock_code rd)) = Raised e
        \/ outcome (technical agents (technical_task stock_code rd)) = Raised e
        \/ outcome (sentiment agents (sentiment_task stock_code rd)) = Raised e).
Proof.
  intros Hd Hraised.
  destruct (gather3_raised
              (execute (fundamental agents) (fundamental_task stock_code rd))
              (execute (technical agents) (technical_task stock_code rd))
              (execute (sentiment agents) (sentiment_task stock_code rd))
              order Hraised) as (ss & e & Hg & Hincl & He).
  exists ss, e. split; [| split; assumption].
  unfold run, analyze_stock, bind, await. simpl.
  rewrite Hd. simpl. rewrite Hg. reflexivity.
Qed.

(** The three analyses return and the risk agent raises. *)
Lemma analyze_stock_risk_raised (rd rf rt rs : AgentResult) (e : exn) :
  outcome (data_collector agents (data_task stock_code)) = Returned rd ->
  outcome (fundamental agents (fundamental_task stock_code rd)) = Returned rf ->
  outcome (technical agents (technical_task stock_code rd)) = Returned rt ->
  outcome (sentiment agents (sentiment_task stock_code rd)) = Returned rs ->
  outcome (risk agents (risk_task stock_code [rf; rt; rs] user_profile))
  = Raised e ->
  exists ss,
    Permutation ss (analysis_settles stock_code rd)
    /\ run = (data_events ++ analysis_starts stock_code rd ++ ss
              ++ risk_events stock_code user_profile [rf; rt; rs],
              Raised e).
Proof.
  intros Hd Hf Ht Hs Hr.
  destruct (gather3_returned
              (execute (fundamental agents) (fundamental_task stock_code rd))
              (execute (technical agents) (technical_task stock_code rd))
              (execute (sentiment agents) (sentiment_task stock_code rd))
              order rf rt rs Hf Ht Hs) as (ss & Hperm & Hg).
  exists ss. split; [assumption |].
  unfold run, analyze_stock, bind, await. simpl.
  rewrite Hd. simpl. rewrite Hg. simpl.
  rewrite Hr. reflexivity.
Qed.

(** The risk agent returns and the strategy agent raises. *)
Lemma analyze_stock_strategy_raised (rd rf rt rs rr : AgentResult) (e : exn) :
  outcome (data_collector agents (data_task stock_code)) = Returned rd ->
  outcome (fundamental agents (fundamental_task stock_code rd)) = Returned rf ->
  outcome (technical agents (technical_task stock_code rd)) = Returned rt ->
  outcome (sentiment agents (sentiment_task stock_code rd)) = Returned rs ->
  outcome (risk agents (risk_task stock_code [rf; rt; rs] user_profile))
  = Returned rr ->
  outcome (strategy agents
             (strategy_task stock_code [rf; rt; rs] rr user_profile))
  = Raised e ->
  exists ss,
    Permutation ss (analysis_settles stock_code rd)
    /\ run = (data_events ++ analysis_starts stock_code rd ++ ss
              ++ risk_events stock_code user_profile [rf; rt; rs] ++ strategy_events stock_code user_profile [rf; rt; rs] rr,
              Raised e).
Proof.
  intros Hd Hf Ht Hs Hr Hg'.
  destruct (gather3_returned
              (execute (fundamental agents) (fundamental_task stock_code rd))
              (execute (technical agents) (technical_task stock_code rd))
              (execute (sentiment agents) (sentiment_task stock_code rd))
              order rf rt rs Hf Ht Hs) as (ss & Hperm & Hg).
  exists ss. split; [assumption |].
  unfold run, analyze_stock, bind, await. simpl.
  rewrite Hd. simpl. rewrite Hg. simpl.
  rewrite Hr. simpl. rewrite Hg'. simpl. rewrite <- ?app_assoc. reflexivity.
Qed.

(** The six agents return: so does the run. *)
Lemma analyze_stock_returned (rd rf rt rs rr rg : AgentResult) :
  outcome (data_collector agents (data_task stock_code)) = Returned rd ->
  outcome (fundamental agents (fundamental_task stock_code rd)) = Returned rf ->
  outcome (technical agents (technical_task stock_code rd)) = Returned rt ->
  outcome (sentiment agents (sentiment_task stock_code rd)) = Returned rs ->
  outcome (risk agents (risk_task stock_code [rf; rt; rs] user_profile))
  = Returned rr ->
  outcome (strategy agents
             (strategy_task stock_code [rf; rt; rs] rr user_profile))
  = Returned rg ->
  exists ss,
    Permutation ss (analysis_settles stock_code rd)
    /\ run = (data_events ++ analysis_starts stock_code rd ++ ss
              ++ risk_events stock_code user_profile [rf; rt; rs] ++ strategy_events stock_code user_profile [rf; rt; rs] rr,
              Returned (returned_dict now stock_code rf rt rs rr rg)).
Proof.
  intros Hd Hf Ht Hs Hr Hg'.
  destruct (gather3_returned
              (execute (fundamental agents) (fundamental_task stock_code rd))
              (execute (technical agents) (technical_task stock_code rd))
              (execute (sentiment agents) (sentiment_task stock_code rd))
              order rf rt rs Hf Ht Hs) as (ss & Hperm & Hg).
  exists ss. split; [assumption |].
  unfold run, analyze_stock, bind, await. simpl.
  rewrite Hd. simpl. rewrite Hg. simpl.
  rewrite Hr. simpl. rewrite Hg'. simpl.
  rewrite <- ?app_assoc, ?app_nil_r. reflexivity.
Qed.

Lemma analyze_stock_cases :
  run_case agents order now stock_code user_profile.
Proof.
  destruct (outcome (data_collector agents (data_task stock_code)))
    as [rd | e] eqn:Hd.
  2:{ exact (data_collection_raised _ _ _ _ _ e Hd (analyze_stock_data_raised e Hd)). }
  assert (Hgather : forall e,
             outcome (fundamental agents (fundamental_task stock_code rd))
             = Raised e
             \/ outcome (technical agents (technical_task stock_code rd))
                = Raised e
             \/ outcome (sentiment agents (sentiment_task stock_code rd))
                = Raised e ->
             run_case agents order now stock_code user_profile).
  { intros e He.
    destruct (analyze_stock_analysis_raised rd Hd (ex_intro _ e He))
      as (ss & e' & H & Hincl & He').
    exact (analysis_raised _ _ _ _ _ rd ss e' Hd He' Hincl H). }
  destruct (outcome (fundamental agents (fundamental_task stock_code rd)))
    as [rf | e] eqn:Hf; [| apply (Hgather e); auto].
  destruct (outcome (technical agents (technical_task stock_code rd)))
    as [rt | e] eqn:Ht; [| apply (Hgather e); auto].
  destruct (outcome (sentiment agents (sentiment_task stock_code rd)))
    as [rs | e] eqn:Hs; [| apply (Hgather e); auto].
  clear Hgather.
  destruct (outcome (risk agents
                       (risk_task stock_code [rf; rt; rs] user_profile)))
    as [rr | e] eqn:Hr.
  2:{ destruct (analyze_stock_risk_raised rd rf rt rs e Hd Hf Ht Hs Hr)
        as (ss & Hp & H).
      exact (risk_raised _ _ _ _ _ rd rf rt rs ss e Hd Hf Ht Hs Hr Hp H). }
  destruct (outcome (strategy agents
                       (strategy_task stock_code [rf; rt; rs] rr user_profile)))
    as [rg | e] eqn:Hg.
  - destruct (analyze_stock_returned rd rf rt rs rr rg Hd Hf Ht Hs Hr Hg)
      as (ss & Hp & H).
    exact (all_returned _ _ _ _ _ rd rf rt rs rr rg ss Hd Hf Ht Hs Hr Hg Hp H).
  - destruct (analyze_stock_strategy_raised rd rf rt rs rr e Hd Hf Ht Hs Hr Hg)
      as (ss & Hp & H).
    exact (strategy_raised _ _ _ _ _ rd rf rt rs rr ss e Hd Hf Ht Hs Hr Hg Hp H).
Qed.

(** The run returns: so did the six agents, each on the task built from the
    results before it. *)
Lemma analyze_stock_returned_inv (d : dict) :
  outcome run = Returned d ->
  exists rd rf rt rs rr rg,
    outcome (data_collector agents (data_task stock_code)) = Returned rd
    /\ outcome (fundamental agents (fundamental_task stock_code rd)) = Returned rf
    /\ outcome (technical agents (technical_task stock_code rd)) = Returned rt
    /\ outcome (sentiment agents (sentiment_task stock_code rd)) = Returned rs
    /\ outcome (risk agents (risk_task stock_code [rf; rt; rs] user_profile))
       = Returned rr
    /\ outcome (strategy agents
                  (strategy_task stock_code [rf; rt; rs] rr user_profile))
       = Returned rg
    /\ d = returned_dict now stock_code rf rt rs rr rg.
Proof.
  intros Hrun. unfold run in Hrun.
  destruct analyze_stock_cases
    as [e _ H | rd ss e _ _ _ H | rd rf rt rs ss e _ _ _ _ _ _ H
        | rd rf rt rs rr ss e _ _ _ _ _ _ _ H
        | rd rf rt rs rr rg ss Hd Hf Ht Hs Hr Hg _ H];
    rewrite H in Hrun; try discriminate Hrun.
  injection Hrun as <-.
  exists rd, rf, rt, rs, rr, rg. repeat split; assumption.
Qed.

End Run.

(** ** The data collector and the fundamental agent *)

Lemma outcome_bind {W} `{Monoid W} {A B} (m : M W A) (f : A -> M W B) :
  outcome (bind m f)
  = match outcome m with
    | Returned a => outcome (f a)
    | Raised e => Raised e
    end.
Proof. unfold bind, outcome. now destruct (snd m). Qed.

Lemma outcome_lift {W} `{Monoid W} {A} (o : Outcome A) :
  outcome (lift (W := W) o) = o.
Proof. reflexivity. Qed.

Lemma collect_raised (env : Env) (stock_code : value) (e : exn) :
  forall (types : list value) (result_data : dict),
    outcome (collect env stock_code types result_data) = Raised e ->
    fetcher_raises env stock_code e.
Proof.
  unfold fetcher_raises.
  induction types as [|data_type rest IH]; intros result_data; simpl.
  - discriminate.
  - destruct (eq_str data_type "price");
      [| destruct (eq_str data_type "financial");
         [| destruct (eq_str data_type "news")]];
      rewrite ?outcome_bind.
    + destruct (outcome (_fetch_price_data env stock_code)) as [v | e'];
        [apply IH | intros [= ->]; auto].
    + destruct (outcome (_fetch_financial_data env stock_code)) as [v | e'];
        [apply IH | intros [= ->]; auto].
    + destruct (outcome (_fetch_news_data env stock_code)) as [v | e'];
        [apply IH | intros [= ->]; auto].
    + apply IH.
Qed.

Lemma collect_returns (env : Env) (stock_code : value) :
  fetchers_return env stock_code ->
  forall (types : list value) (result_data : dict),
    exists d, outcome (collect env stock_code types result_data) = Returned d.
Proof.
  intros ([vp Hp] & [vf Hf] & [vn Hn]).
  induction types as [|data_type rest IH]; intros result_data; simpl.
  - now exists result_data.
  - destruct (eq_str data_type "price");
      [| destruct (eq_str data_type "financial");
         [| destruct (eq_str data_type "news")]];
      rewrite ?outcome_bind, ?Hp, ?Hf, ?Hn; apply IH.
Qed.

Section DataCollectionAgent.

Variable env : Env.
Variable task : AgentTask.

Let stock_code : value := dict_get (input_data task) "stock_code" VNone.
Let data_types : value :=
  dict_get (input_data task) "data_types" default_data_types.

(** Whatever [execute] returns was built by its last statement. *)
Lemma DataCollectionAgent_execute_returned (r : AgentResult) :
  outcome (DataCollectionAgent_execute env task) = Returned r ->
  exists result_data, r = AgentResult_new (task_id task) true result_data.
Proof.
  unfold DataCollectionAgent_execute. rewrite outcome_bind, outcome_lift.
  destruct (iter _) as [types | e]; [| discriminate].
  rewrite outcome_bind.
  destruct (outcome (collect _ _ _ _)) as [result_data | e]; [| discriminate].
  intros [= <-]. now exists result_data.
Qed.

(** Whatever [execute] raises was raised by the iteration over [data_types]
    or by a fetcher. *)
Lemma DataCollectionAgent_execute_raised (e : exn) :
  outcome (DataCollectionAgent_execute env task) = Raised e ->
  iter data_types = Raised e \/ fetcher_raises env stock_code e.
Proof.
  unfold DataCollectionAgent_execute. rewrite outcome_bind, outcome_lift.
  fold stock_code data_types.
  destruct (iter data_types) as [types | e'].
  - rewrite outcome_bind.
    destruct (outcome (collect env stock_code types [])) as [d | e'] eqn:Hc.
    + discriminate.
    + intros [= ->]. right. eapply collect_raised, Hc.
  - intros [= ->]. now left.
Qed.

Lemma DataCollectionAgent_execute_returns (types : list value) :
  iter data_types = Returned types ->
  fetchers_return env stock_code ->
  exists r, outcome (DataCollectionAgent_execute env task) = Returned r.
Proof.
  intros Hi Hf.
  destruct (outcome (DataCollectionAgent_execute env task)) as [r | e] eqn:Hx.
  - now exists r.
  - exfalso. apply DataCollectionAgent_execute_raised in Hx.
    destruct Hx as [Hx | Hx]; [congruence |].
    destruct Hf as ([vp Hp] & [vf Hf] & [vn Hn]).
    unfold fetcher_raises in Hx. intuition congruence.
Qed.

End DataCollectionAgent.

Lemma FundamentalAnalysisAgent_execute_returned (env : Env) (task : AgentTask)
      (r : AgentResult) :
  outcome (FundamentalAnalysisAgent_execute env task) = Returned r ->
  exists d, r = AgentResult_new (task_id task) true d.
Proof.
  unfold FundamentalAnalysisAgent_execute.
  rewrite outcome_bind, outcome_lift.
  destruct (_build_analysis_prompt env _) as [p | e]; [| discriminate].
  rewrite outcome_bind.
  destruct (outcome (llm_apredict env p)) as [a | e]; [| discriminate].
  rewrite outcome_bind, outcome_lift.
  destruct (_calculate_financial_ratios env _) as [q | e]; [| discriminate].
  rewrite outcome_bind, outcome_lift.
  destruct (_calculate_fundamental_score env q) as [s | e]; [| discriminate].
  intros [= <-]. eexists. reflexivity.
Qed.

Lemma FundamentalAnalysisAgent_execute_raised (env : Env) (task : AgentTask)
      (e : exn) :
  outcome (FundamentalAnalysisAgent_execute env task) = Raised e ->
  analysis_step_raises env
    (dict_get (input_data task) "financial_data" VNone) e.
Proof.
  unfold FundamentalAnalysisAgent_execute, analysis_step_raises.
  rewrite outcome_bind, outcome_lift.
  destruct (_build_analysis_prompt env _) as [p | e0] eqn:Hp;
    [| intros [= ->]; now left].
  rewrite outcome_bind.
  destruct (outcome (llm_apredict env p)) as [a | e0] eqn:Ha;
    [| intros [= ->]; right; left; now exists p].
  rewrite outcome_bind, outcome_lift.
  destruct (_calculate_financial_ratios env _) as [q | e0] eqn:Hq;
    [| intros [= ->]; right; right; now left].
  rewrite outcome_bind, outcome_lift.
  destruct (_calculate_fundamental_score env q) as [x | e0] eqn:Hx;
    [discriminate | intros [= ->]; right; right; right; now exists q].
Qed.

(** ** Order in the log *)

Lemma settles_beforeb_sound (a b : string) (log : list event) :
  forall seen,
    settles_beforeb a b seen log = true ->
    forall l1 e l2,
      log = l1 ++ e :: l2 -> starts b e = true ->
      seen || existsb (settles a) l1 = true.
Proof.
  induction log as [|x log IH]; intros seen Hb l1 e l2 Hlog He.
  - now destruct l1.
  - simpl in Hb. apply andb_true_iff in Hb. destruct Hb as [Hx Hrest].
    destruct l1 as [|y l1]; simpl in Hlog; injection Hlog as -> ->.
    + rewrite He in Hx. simpl in *. now rewrite orb_false_r.
    + specialize (IH _ Hrest l1 e l2 eq_refl He). simpl.
      now rewrite orb_assoc.
Qed.

Lemma settles_before_checked (a b : string) (log : list event) :
  settles_beforeb a b false log = true -> settles_before a b log.
Proof.
  intros Hb l1 e l2 Hlog He.
  exact (settles_beforeb_sound a b log false Hb l1 e l2 Hlog He).
Qed.

Lemma settles_before_not_dispatched (a b : string) (log : list event) :
  dispatched b log = false -> settles_before a b log.
Proof.
  intros Hd l1 e l2 -> He. unfold dispatched in Hd.
  rewrite existsb_app in Hd. simpl in Hd. rewrite He in Hd.
  rewrite orb_true_r in Hd. discriminate Hd.
Qed.

(** A log in two parts: the first is in order, and either it has the
    settling that the second needs, or the second is in order by itself. *)
Lemma settles_before_app (a b : string) (l l' : list event) :
  settles_before a b l ->
  existsb (settles a) l = true \/ settles_before a b l' ->
  settles_before a b (l ++ l').
Proof.
  intros Hl Hl' l1 e l2 Hlog He.
  apply app_eq_app in Hlog. destruct Hlog as [m [[-> Hm] | [-> Hm]]].
  - destruct m as [|x m]; simpl in Hm.
    + rewrite app_nil_r in Hl'. destruct Hl' as [Hs | Hs]; [assumption |].
      specialize (Hs [] e l2 (eq_sym Hm) He). discriminate Hs.
    + injection Hm as <- ->. exact (Hl l1 e m eq_refl He).
  - rewrite existsb_app. apply orb_true_iff.
    destruct Hl' as [Hs | Hs]; [now left | right].
    now apply (Hs m e l2).
Qed.

Lemma settle_events_start_nothing (ty : string) (ss : list event)
      (tasks : list AgentTask) :
  incl ss (map Settle tasks) -> existsb (starts ty) ss = false.
Proof.
  intros Hincl. apply not_true_is_false. intros Hex.
  apply existsb_exists in Hex. destruct Hex as [x [Hx Hs]].
  apply Hincl, in_map_iff in Hx. destruct Hx as [t [<- _]]. discriminate Hs.
Qed.

Lemma settled_among (t : AgentTask) (ss settled : list event) :
  Permutation ss settled -> In (Settle t) settled ->
  existsb (settles (task_type t)) ss = true.
Proof.
  intros Hperm Hin. apply existsb_exists. exists (Settle t). split.
  - eapply Permutation_in; [apply Permutation_sym, Hperm | assumption].
  - simpl. apply String.eqb_refl.
Qed.

Section Stages.

Variable stock_code : string.
Variable user_profile : dict.
Variable rd : AgentResult.

Let opening : list event :=
  [Start (data_task stock_code); Settle (data_task stock_code)]
  ++ analysis_starts stock_code rd.

Lemma data_collection_first (k : Types.AnalysisType) (rest : list event) :
  settles_before "data_collection" (Types.task_type_of k) (opening ++ rest).
Proof.
  apply settles_before_app.
  - apply settles_before_checked. now destruct k.
  - now left.
Qed.

Lemma later_stages_not_dispatched (ty : string) (ss : list event) :
  ty = "risk_assessment" \/ ty = "strategy_generation" ->
  incl ss (analysis_settles stock_code rd) ->
  dispatched ty (opening ++ ss) = false.
Proof.
  intros Hty Hincl. unfold dispatched. rewrite existsb_app.
  rewrite (settle_events_start_nothing ty ss
             [fundamental_task stock_code rd; technical_task stock_code rd;
              sentiment_task stock_code rd] Hincl).
  now destruct Hty as [-> | ->].
Qed.

Lemma analyses_settled (k : Types.AnalysisType) (ss : list event) :
  Permutation ss (analysis_settles stock_code rd) ->
  existsb (settles (Types.task_type_of k)) (opening ++ ss) = true.
Proof.
  intros Hperm. rewrite existsb_app. apply orb_true_iff. right.
  destruct k.
  - apply (settled_among (fundamental_task stock_code rd) _ _ Hperm).
    simpl. auto.
  - apply (settled_among (technical_task stock_code rd) _ _ Hperm).
    simpl. auto.
  - apply (settled_among (sentiment_task stock_code rd) _ _ Hperm).
    simpl. auto.
Qed.

Lemma stage_order_after_analyses (rf rt rs rr : AgentResult) (ss : list event) :
  Permutation ss (analysis_settles stock_code rd) ->
  let log :=
    [Start (data_task stock_code); Settle (data_task stock_code)]
    ++ analysis_starts stock_code rd ++ ss
    ++ risk_events stock_code user_profile [rf; rt; rs]
    ++ strategy_events stock_code user_profile [rf; rt; rs] rr in
  (forall k, settles_before "data_collection" (Types.task_type_of k) log)
  /\ (forall k, settles_before (Types.task_type_of k) "risk_assessment" log)
  /\ settles_before "risk_assessment" "strategy_generation" log.
Proof.
  intros Hperm log. subst log.
  pose proof (fun x => Permutation_in x Hperm) as Hincl.
  rewrite app_assoc. rewrite (app_assoc _ ss). fold opening.
  repeat split; intros.
  - rewrite <- app_assoc. apply data_collection_first.
  - apply settles_before_app.
    + apply settles_before_not_dispatched, later_stages_not_dispatched; auto.
    + left. now apply analyses_settled.
  - apply settles_before_app.
    + apply settles_before_not_dispatched, later_stages_not_dispatched; auto.
    + right. now apply settles_before_checked.
Qed.

End Stages.

(** ** What is dispatched once the data is there *)

Section Dispatch.

Variable agents : Agents.
Variable order : list nat.
Variable now : string.
Variable stock_code : string.
Variable user_profile : dict.
Variable rd : AgentResult.

Hypothesis data_returned :
  outcome (data_collector agents (data_task stock_code)) = Returned rd.

Let run : Run dict := analyze_stock agents order now stock_code user_profile.

Let opening : list event :=
  [Start (data_task stock_code); Settle (data_task stock_code)]
  ++ analysis_starts stock_code rd.

(** Pick the case of the run, with the data result named [rd]. *)
Ltac run_cases :=
  destruct (analyze_stock_cases agents order now stock_code user_profile)
    as [e Hd H | rd' ss e Hd He Hincl H
        | rd' rf' rt' rs' ss e Hd Hf' Ht' Hs' Hr' Hperm H
        | rd' rf' rt' rs' rr' ss e Hd Hf' Ht' Hs' Hr' Hg' Hperm H
        | rd' rf' rt' rs' rr' rg' ss Hd Hf' Ht' Hs' Hr' Hg' Hperm H];
  [ congruence | ..];
  (assert (rd' = rd) as -> by congruence).

(** The three analyses are started, whatever comes next. *)
Lemma analyses_started : exists rest, written run = opening ++ rest.
Proof.
  unfold run, opening. run_cases; rewrite H; unfold written; cbn [fst];
    rewrite app_assoc; eexists; reflexivity.
Qed.

(** A fault in one of the three analyses ends the run before the risk
    assessment. *)
Lemma analysis_fault_stops_the_run :
  (exists e,
      outcome (fundamental agents (fundamental_task stock_code rd)) = Raised e
      \/ outcome (technical agents (technical_task stock_code rd)) = Raised e
      \/ outcome (sentiment agents (sentiment_task stock_code rd)) = Raised e) ->
  (exists e,
      outcome run = Raised e
      /\ (outcome (fundamental agents (fundamental_task stock_code rd))
          = Raised e
          \/ outcome (technical agents (technical_task stock_code rd))
             = Raised e
          \/ outcome (sentiment agents (sentiment_task stock_code rd))
             = Raised e))
  /\ dispatched "risk_assessment" (written run) = false
  /\ dispatched "strategy_generation" (written run) = false.
Proof.
  intros [e0 He0]. unfold run.
  run_cases; try (exfalso; intuition congruence).
  rewrite H. unfold written, outcome. cbn [fst snd]. split; [| split].
  - now exists e.
  - rewrite app_assoc. apply later_stages_not_dispatched; auto.
  - rewrite app_assoc. apply later_stages_not_dispatched; auto.
Qed.

(** When the three analyses return, the risk assessment is started, on the
    three results. *)
Lemma risk_assessment_started (rf rt rs : AgentResult) :
  outcome (fundamental agents (fundamental_task stock_code rd)) = Returned rf ->
  outcome (technical agents (technical_task stock_code rd)) = Returned rt ->
  outcome (sentiment agents (sentiment_task stock_code rd)) = Returned rs ->
  In (Start (risk_task stock_code [rf; rt; rs] user_profile)) (written run).
Proof.
  intros Hf Ht Hs. unfold run.
  run_cases; try (exfalso; intuition congruence);
    assert (rf' = rf) as -> by congruence;
    assert (rt' = rt) as -> by congruence;
    assert (rs' = rs) as -> by congruence;
    rewrite H; unfold written; cbn [fst];
    rewrite !in_app_iff; right; right; right; simpl; auto.
Qed.

End Dispatch.

(** * The claims *)

(** ** C1: a failed data collection ends the run, with an exception *)

(** C1, as the spec has it, fails in its first half.  With the price source
    down the data-collection task fails, and the run does not end in a state
    [Failed] that carries a reason: [analyze_stock] keeps no run state and
    returns nothing, and what reaches its caller is the exception of the
    fetcher as it was raised, a [ConnectionError] and no [FatalDataError]. *)
Lemma data_collection_failure_reaches_the_caller :
  task_failed (outcome (DataCollectionAgent_execute Sample.env_price_down
                          (data_task "000001"))) = true
  /\ outcome (_fetch_price_data Sample.env_price_down (VStr "000001"))
     = Raised Sample.fault
  /\ outcome (analyze_stock (AnalysisOrchestrator_init Sample.env_price_down)
                [] Sample.now "000001" Sample.user_profile)
     = Raised Sample.fault
  /\ exc_class Sample.fault <> "FatalDataError"
  /\ ~ exists d,
         outcome (analyze_stock
                    (AnalysisOrchestrator_init Sample.env_price_down)
                    [] Sample.now "000001" Sample.user_profile) = Returned d.
Proof.
  split; [reflexivity | split; [reflexivity | split; [reflexivity |]]].
  split; [discriminate |].
  intros [d Hd]. discriminate Hd.
Qed.

(** C1, amended.  When the data-collection task fails (the data collector
    raises, the only way it can fail), [analyze_stock] raises the collector's
    exception to its caller instead of returning a dictionary: no status and
    no reason is produced.  The log holds the start and the settling of the
    data-collection task and nothing else, and no task of another kind is
    dispatched. *)
Theorem data_collection_failure_is_fatal
        (env : Env) (order : list nat) (now : string)
        (stock_code : string) (user_profile : dict) :
  task_failed (outcome (DataCollectionAgent_execute env (data_task stock_code)))
  = true ->
  exists e,
    outcome (DataCollectionAgent_execute env (data_task stock_code)) = Raised e
    /\ analyze_stock (AnalysisOrchestrator_init env) order now stock_code
         user_profile
       = (data_events stock_code, Raised e)
    /\ forall ty, ty <> "data_collection" ->
         dispatched ty
           (written (analyze_stock (AnalysisOrchestrator_init env) order now
                       stock_code user_profile)) = false.
Proof.
  intros Hfailed.
  destruct (outcome (DataCollectionAgent_execute env (data_task stock_code)))
    as [r | e] eqn:Hd.
  - apply DataCollectionAgent_execute_returned in Hd. destruct Hd as [d ->].
    discriminate Hfailed.
  - exists e. split; [reflexivity |].
    rewrite (analyze_stock_data_raised (AnalysisOrchestrator_init env) order
               now stock_code user_profile e Hd).
    split; [reflexivity |]. intros ty Hty. unfold dispatched. cbn -[String.eqb].
    rewrite orb_false_r. apply String.eqb_neq. congruence.
Qed.

Lemma data_collection_failure_is_fatal_witness :
  exists e,
    outcome (DataCollectionAgent_execute Sample.env_price_down
               (data_task "000001")) = Raised e
    /\ analyze_stock (AnalysisOrchestrator_init Sample.env_price_down) []
         Sample.now "000001" Sample.user_profile
       = (data_events "000001", Raised e)
    /\ forall ty, ty <> "data_collection" ->
         dispatched ty
           (written (analyze_stock
                       (AnalysisOrchestrator_init Sample.env_price_down) []
                       Sample.now "000001" Sample.user_profile)) = false.
Proof.
  apply (data_collection_failure_is_fatal Sample.env_price_down [] Sample.now
           "000001" Sample.user_profile).
  reflexivity.
Defined.

(** ** C2: what a failed analysis does to the run *)

(** C2, as the spec has it, fails.  First run: the data is collected, the
    fundamental and the sentiment analyses succeed, the technical agent
    raises; the run is aborted by that exception and the risk assessment
    never runs.  Second run: the sentiment agent returns a result with
    [success = False]; the risk assessment runs, on the three results, the
    failed one among them. *)
Lemma analysis_failure_aborts_the_run :
  (let agents := AnalysisOrchestrator_init Sample.env_technical_raises in
   let run := analyze_stock agents [] Sample.now "000001" Sample.user_profile in
   exists rd,
     outcome (data_collector agents (data_task "000001")) = Returned rd
     /\ success rd = true
     /\ task_failed (outcome (fundamental agents
                                (fundamental_task "000001" rd))) = false
     /\ task_failed (outcome (technical agents
                                (technical_task "000001" rd))) = true
     /\ task_failed (outcome (sentiment agents
                                (sentiment_task "000001" rd))) = false
     /\ (exists e, outcome run = Raised e)
     /\ dispatched "risk_assessment" (written run) = false)
  /\ (let agents := AnalysisOrchestrator_init Sample.env_sentiment_fails in
      let run :=
        analyze_stock agents [] Sample.now "000001" Sample.user_profile in
      exists rd rf rt rs,
        outcome (data_collector agents (data_task "000001")) = Returned rd
        /\ outcome (sentiment agents (sentiment_task "000001" rd))
           = Returned rs
        /\ success rs = false
        /\ In (Start (risk_task "000001" [rf; rt; rs] Sample.user_profile))
              (written run)).
Proof.
  split; cbv zeta.
  - eexists. split; [reflexivity |]. repeat split.
    eexists. reflexivity.
  - do 4 eexists. split; [reflexivity |]. split; [reflexivity |].
    split; [reflexivity |].
    vm_compute. do 8 right. left. reflexivity.
Qed.

(** C2, amended.  In a run whose data collection returned: if one of the
    fundamental, technical and sentiment tasks raises, [analyze_stock] raises
    the exception of one of them and neither the risk assessment nor the
    strategy generation is dispatched; if the three return, whatever their
    [success] flags, the risk assessment is dispatched on the list of the
    three results, failed ones included, and when it and the strategy
    generation return, the run returns the dictionary built from the results
    as they are. *)
Theorem analyze_stock_partial_failure
        (agents : Agents) (order : list nat) (now : string)
        (stock_code : string) (user_profile : dict) (rd : AgentResult) :
  outcome (data_collector agents (data_task stock_code)) = Returned rd ->
  partial_failure_behaviour agents order now stock_code user_profile rd.
Proof.
  intros Hd. unfold partial_failure_behaviour. cbv zeta. split.
  - apply analysis_fault_stops_the_run, Hd.
  - intros rf rt rs Hf Ht Hs. split.
    + exact (risk_assessment_started agents order now stock_code user_profile
               rd Hd rf rt rs Hf Ht Hs).
    + intros rr rg Hr Hg.
      destruct (analyze_stock_returned agents order now stock_code user_profile
                  rd rf rt rs rr rg Hd Hf Ht Hs Hr Hg) as (ss & _ & H).
      now rewrite H.
Qed.

Lemma analyze_stock_partial_failure_witness :
  partial_failure_behaviour
    (AnalysisOrchestrator_init Sample.env_sentiment_fails) [1; 0]%nat
    Sample.now "000001" Sample.user_profile
    (AgentResult_new "data_000001" true
       [("price_data", VList [VNum 12; VNum 13]);
        ("financial_data", VDict [("roe", VNum (79 # 5))]);
        ("news_data", VList [VStr "earnings up"])]).
Proof.
  apply (analyze_stock_partial_failure
           (AnalysisOrchestrator_init Sample.env_sentiment_fails)).
  reflexivity.
Defined.

(** ** C3: a fault of the analyzer leaves [execute] as an exception *)



(** ** C4: the stages of a run follow one another *)

(** C4.  In the log of every run of [analyze_stock], whatever the agents do
    and whatever the order in which the event loop lets the three analyses
    settle: a fundamental, technical or sentiment task starts only after the
    data-collection task has settled; the risk-assessment task starts only
    after each of the three analyses has settled; the strategy-generation
    task starts only after the risk-assessment task has settled. *)
Theorem analyze_stock_stage_order
        (agents : Agents) (order : list nat) (now : string)
        (stock_code : string) (user_profile : dict) :
  let log := written (analyze_stock agents order now stock_code user_profile) in
  (forall k, settles_before "data_collection" (Types.task_type_of k) log)
  /\ (forall k, settles_before (Types.task_type_of k) "risk_assessment" log)
  /\ settles_before "risk_assessment" "strategy_generation" log.
Proof.
  intros log. subst log.
  destruct (analyze_stock_cases agents order now stock_code user_profile)
    as [e _ -> | rd ss e _ _ Hincl -> | rd rf rt rs ss e _ _ _ _ _ Hperm ->
        | rd rf rt rs rr ss e _ _ _ _ _ _ Hperm ->
        | rd rf rt rs rr rg ss _ _ _ _ _ _ Hperm ->];
    unfold written; cbn [fst].
  - repeat split; intros; apply settles_before_checked;
      try destruct k; reflexivity.
  - rewrite app_assoc. repeat split; intros.
    + apply data_collection_first.
    + apply settles_before_not_dispatched, later_stages_not_dispatched; auto.
    + apply settles_before_not_dispatched, later_stages_not_dispatched; auto.
  - pose proof (fun x => Permutation_in x Hperm) as Hincl.
    rewrite app_assoc. rewrite (app_assoc _ ss). repeat split; intros.
    + rewrite <- app_assoc. apply data_collection_first.
    + apply settles_before_app.
      * apply settles_before_not_dispatched, later_stages_not_dispatched; auto.
      * left. now apply analyses_settled.
    + apply settles_before_app.
      * apply settles_before_not_dispatched, later_stages_not_dispatched; auto.
      * right. now apply settles_before_checked.
  - apply (stage_order_after_analyses stock_code user_profile rd rf rt rs rr
             ss Hperm).
  - apply (stage_order_after_analyses stock_code user_profile rd rf rt rs rr
             ss Hperm).
Qed.

(** A complete run of the sample: every stage is dispatched, and the order
    relation is not trivially true. *)
Example sample_run_is_complete :
  let log := written (analyze_stock (AnalysisOrchestrator_init Sample.env)
                        [2; 0]%nat Sample.now "000001" Sample.user_profile) in
  dispatched "strategy_generation" log = true
  /\ length log = 12%nat
  /\ settles_beforeb "risk_assessment" "data_collection" false log = false.
Proof. vm_compute. auto. Qed.

(** ** C5: the requested analysis kinds *)

(** C5, as the spec has it, fails: [analyze_stock] receives the stock code
    of the request and nothing of its [analysis_types]; for a request of the
    technical analysis alone, the fundamental and the sentiment tasks are
    dispatched all the same. *)
Lemma unrequested_analyses_are_dispatched :
  let req := Sample.technical_only in
  let log := written (analyze_stock (AnalysisOrchestrator_init Sample.env) []
                        Sample.now (Types.stock_code req)
                        Sample.user_profile) in
  ~ In Types.fundamental (Types.analysis_types req)
  /\ ~ In Types.sentiment (Types.analysis_types req)
  /\ dispatched (Types.task_type_of Types.fundamental) log = true
  /\ dispatched (Types.task_type_of Types.sentiment) log = true.
Proof.
  cbv zeta. repeat split; try reflexivity;
    simpl; intros [H | []]; discriminate H.
Qed.

(** C5, amended.  For every request, whatever its [analysis_types], a run
    of [analyze_stock] on its stock code whose data collection returned
    dispatches the fundamental, the technical and the sentiment task; and
    when the three return, the risk assessment is dispatched on a task whose
    [analysis_results] are the three results, in that order. *)
Theorem analyze_stock_dispatches_every_analysis
        (agents : Agents) (order : list nat) (now : string)
        (req : Types.StockAnalysisRequest) (user_profile : dict)
        (rd : AgentResult) :
  let stock_code := Types.stock_code req in
  let log := written (analyze_stock agents order now stock_code user_profile) in
  outcome (data_collector agents (data_task stock_code)) = Returned rd ->
  (forall k, dispatched (Types.task_type_of k) log = true)
  /\ (forall rf rt rs,
         outcome (fundamental agents (fundamental_task stock_code rd))
         = Returned rf ->
         outcome (technical agents (technical_task stock_code rd))
         = Returned rt ->
         outcome (sentiment agents (sentiment_task stock_code rd))
         = Returned rs ->
         In (Start (risk_task stock_code [rf; rt; rs] user_profile)) log
         /\ dict_lookup
              (input_data (risk_task stock_code [rf; rt; rs] user_profile))
              "analysis_results"
            = Some (VList [VResult rf; VResult rt; VResult rs])).
Proof.
  intros stock_code log Hd. split.
  - intros k. subst log.
    destruct (analyses_started agents order now stock_code user_profile rd Hd)
      as [rest ->].
    unfold dispatched. rewrite existsb_app. now destruct k.
  - intros rf rt rs Hf Ht Hs. split; [| reflexivity].
    exact (risk_assessment_started agents order now stock_code user_profile
             rd Hd rf rt rs Hf Ht Hs).
Qed.

Lemma analyze_stock_dispatches_every_analysis_witness :
  let log := written (analyze_stock (AnalysisOrchestrator_init Sample.env) []
                        Sample.now "000001" Sample.user_profile) in
  dispatched "fundamental_analysis" log = true
  /\ dispatched "technical_analysis" log = true
  /\ dispatched "sentiment_analysis" log = true.
Proof.
  cbv zeta.
  pose proof (analyze_stock_dispatches_every_analysis
                (AnalysisOrchestrator_init Sample.env) [] Sample.now
                Sample.technical_only Sample.user_profile
                (AgentResult_new "data_000001" true
                   [("price_data", VList [VNum 12; VNum 13]);
                    ("financial_data", VDict [("roe", VNum (79 # 5))]);
                    ("news_data", VList [VStr "earnings up"])])
                eq_refl) as [H _].
  exact (conj (H Types.fundamental)
              (conj (H Types.technical) (H Types.sentiment))).
Defined.

(** ** C6: the strategy output in the returned dictionary *)

(** C6, as the spec has it, fails: the sentiment analysis reports a failure,
    the strategy generation succeeds with confidence 0.75, and the returned
    confidence is 0.75, not 0.75 * 0.8. *)
Lemma confidence_is_not_penalised :
  let agents := AnalysisOrchestrator_init Sample.env_sentiment_fails in
  let run := analyze_stock agents [] Sample.now "000001" Sample.user_profile in
  exists rd rf rt rs rr rg d,
    outcome (data_collector agents (data_task "000001")) = Returned rd
    /\ outcome (fundamental agents (fundamental_task "000001" rd)) = Returned rf
    /\ outcome (technical agents (technical_task "000001" rd)) = Returned rt
    /\ outcome (sentiment agents (sentiment_task "000001" rd)) = Returned rs
    /\ outcome (risk agents
                  (risk_task "000001" [rf; rt; rs] Sample.user_profile))
       = Returned rr
    /\ outcome (strategy agents
                  (strategy_task "000001" [rf; rt; rs] rr Sample.user_profile))
       = Returned rg
    /\ outcome run = Returned d
    /\ success rg = true
    /\ failed_analyses [rf; rt; rs] = 1%nat
    /\ dict_lookup (data rg) "confidence" = Some (VNum (3 # 4))
    /\ confidence_of d = Some (VNum (3 # 4))
    /\ ~ (3 # 4 == penalised_confidence (3 # 4) (failed_analyses [rf; rt; rs]))%Q.
Proof.
  cbv zeta. do 7 eexists.
  repeat (split; [reflexivity |]).
  vm_compute. discriminate.
Qed.

(** C6, amended.  In every run that returns, the dictionary holds under
    [investment_strategy] the data of the strategy-generation result as it
    is: the action, the target price, the stop-loss and also the confidence
    are the strategy's own entries, and the confidence is not scaled. *)
Theorem strategy_output_is_returned_verbatim
        (agents : Agents) (order : list nat) (now : string)
        (stock_code : string) (user_profile : dict) (d : dict) :
  outcome (analyze_stock agents order now stock_code user_profile)
  = Returned d ->
  exists rd rf rt rs rr rg,
    outcome (data_collector agents (data_task stock_code)) = Returned rd
    /\ outcome (fundamental agents (fundamental_task stock_code rd))
       = Returned rf
    /\ outcome (technical agents (technical_task stock_code rd)) = Returned rt
    /\ outcome (sentiment agents (sentiment_task stock_code rd)) = Returned rs
    /\ outcome (risk agents (risk_task stock_code [rf; rt; rs] user_profile))
       = Returned rr
    /\ outcome (strategy agents
                  (strategy_task stock_code [rf; rt; rs] rr user_profile))
       = Returned rg
    /\ investment_strategy d = Some (VDict (data rg))
    /\ action_of d = dict_lookup (data rg) "recommendation"
    /\ target_price_of d = dict_lookup (data rg) "target_price"
    /\ stop_loss_of d = dict_lookup (data rg) "stop_loss"
    /\ confidence_of d = dict_lookup (data rg) "confidence".
Proof.
  intros Hrun. apply analyze_stock_returned_inv in Hrun.
  destruct Hrun as (rd & rf & rt & rs & rr & rg & Hd & Hf & Ht & Hs & Hr & Hg
                    & ->).
  exists rd, rf, rt, rs, rr, rg. repeat (split; [assumption |]).
  repeat split.
Qed.

Lemma strategy_output_is_returned_verbatim_witness :
  exists d,
    outcome (analyze_stock (AnalysisOrchestrator_init Sample.env_sentiment_fails)
               [] Sample.now "000001" Sample.user_profile) = Returned d
    /\ action_of d = Some (VStr "buy")
    /\ target_price_of d = Some (VNum (74 # 5))
    /\ stop_loss_of d = Some (VNum (56 # 5))
    /\ confidence_of d = Some (VNum (3 # 4)).
Proof.
  eexists. split; [reflexivity |].
  destruct (strategy_output_is_returned_verbatim
              (AnalysisOrchestrator_init Sample.env_sentiment_fails) []
              Sample.now "000001" Sample.user_profile _ eq_refl)
    as (rd & rf & rt & rs & rr & rg & _ & _ & _ & _ & _ & _ & _
        & Ha & Ht & Hs & Hc).
  repeat split; reflexivity.
Defined.

(** ** C7: the recommendation is a function of the task results *)

(** C7.  The action and the confidence of the returned dictionary are
    determined by the task results from which it is built: two finalizations
    over the same gathered analyses, risk result and strategy result give the
    same action and the same confidence, whatever the stock code and the
    clock; both are the entries of the strategy result. *)
Theorem recommendation_is_deterministic
        (stock_code stock_code' now now' : string)
        (analysis_results : list AgentResult)
        (risk_result strategy_result : AgentResult) (d d' : dict) :
  outcome (report stock_code analysis_results risk_result strategy_result now)
  = Returned d ->
  outcome (report stock_code' analysis_results risk_result strategy_result now')
  = Returned d' ->
  action_of d = action_of d'
  /\ confidence_of d = confidence_of d'
  /\ action_of d = dict_lookup (data strategy_result) "recommendation"
  /\ confidence_of d = dict_lookup (data strategy_result) "confidence".
Proof.
  unfold report. rewrite !outcome_bind, !outcome_lift.
  destruct (index analysis_results 0) as [r0 | e]; [| discriminate].
  rewrite !outcome_bind, !outcome_lift.
  destruct (index analysis_results 1) as [r1 | e]; [| discriminate].
  rewrite !outcome_bind, !outcome_lift.
  destruct (index analysis_results 2) as [r2 | e]; [| discriminate].
  intros [= <-] [= <-]. repeat split.
Qed.

Lemma recommendation_is_deterministic_witness :
  let r := AgentResult_new "t" true [] in
  let g := AgentResult_new "strategy_000001" true
             (Types.StrategyResult_json Sample.strategy_output) in
  exists d d',
    outcome (report "000001" [r; r; r] r g "2024-01-15T10:30:00") = Returned d
    /\ outcome (report "000002" [r; r; r] r g "2024-01-16T09:00:00")
       = Returned d'
    /\ action_of d = action_of d'
    /\ confidence_of d = confidence_of d'.
Proof.
  intros r g. do 2 eexists. split; [reflexivity | split; [reflexivity |]].
  destruct (recommendation_is_deterministic
              "000001" "000002" "2024-01-15T10:30:00" "2024-01-16T09:00:00"
              [r; r; r] r g _ _ eq_refl eq_refl) as (Ha & Hc & _).
  exact (conj Ha Hc).
Defined.

(** Nor does the event loop matter: two runs with the same agents, on the
    same arguments, that return, return the same dictionary but for the
    timestamp, in whatever order the analyses settled. *)
Lemma analyze_stock_schedule_independent
      (agents : Agents) (order order' : list nat) (now now' : string)
      (stock_code : string) (user_profile : dict) (d d' : dict) :
  outcome (analyze_stock agents order now stock_code user_profile)
  = Returned d ->
  outcome (analyze_stock agents order' now' stock_code user_profile)
  = Returned d' ->
  forall k, k <> "timestamp" -> dict_lookup d k = dict_lookup d' k.
Proof.
  intros H H'.
  apply analyze_stock_returned_inv in H, H'.
  destruct H as (rd & rf & rt & rs & rr & rg & Hd & Hf & Ht & Hs & Hr & Hg & ->).
  destruct H' as (rd' & rf' & rt' & rs' & rr' & rg' & Hd' & Hf' & Ht' & Hs'
                  & Hr' & Hg' & ->).
  assert (rd' = rd) as -> by congruence.
  assert (rf' = rf) as -> by congruence.
  assert (rt' = rt) as -> by congruence.
  assert (rs' = rs) as -> by congruence.
  assert (rr' = rr) as -> by congruence.
  assert (rg' = rg) as -> by congruence.
  intros k Hk. unfold returned_dict, dict_lookup.
  repeat (destruct (String.eqb _ k); [reflexivity |]).
  apply String.eqb_neq in Hk. rewrite String.eqb_sym in Hk. now rewrite Hk.
Qed.

(** ** C8: [execution_time] is never measured *)

(** C8, as the spec has it, fails: collecting the data of the sample takes
    six seconds, and the result says [execution_time = 0]. *)
Lemma execution_time_is_not_the_duration :
  let m := DataCollectionAgent_execute Sample.env (data_task "000001") in
  exists r,
    outcome m = Returned r
    /\ (written m == 6)%Q
    /\ ~ (execution_time r == written m)%Q.
Proof.
  eexists. split; [reflexivity | split; [reflexivity |]].
  vm_compute. discriminate.
Qed.

(** C8, amended.  The results that the data collector and the fundamental
    agent return carry the default [execution_time = 0], however long the
    execution took: no duration is measured. *)
Theorem execution_time_is_the_default (env : Env) (task : AgentTask)
        (r : AgentResult) :
  outcome (DataCollectionAgent_execute env task) = Returned r
  \/ outcome (FundamentalAnalysisAgent_execute env task) = Returned r ->
  execution_time r = 0%Q.
Proof.
  intros [Hr | Hr].
  - apply DataCollectionAgent_execute_returned in Hr. now destruct Hr as [d ->].
  - apply FundamentalAnalysisAgent_execute_returned in Hr.
    now destruct Hr as [d ->].
Qed.

Lemma execution_time_is_the_default_witness :
  execution_time
    (AgentResult_new "data_000001" true
       [("price_data", VList [VNum 12; VNum 13]);
        ("financial_data", VDict [("roe", VNum (79 # 5))]);
        ("news_data", VList [VStr "earnings up"])])
  = 0%Q.
Proof.
  apply (execution_time_is_the_default Sample.env (data_task "000001")).
  left. reflexivity.
Defined.

(** ** C9: the data collector never reports a failure *)

(** C9.  [DataCollectionAgent.execute] never hands back a failed result:
    every [AgentResult] it returns has [success = True], whatever the task
    and whatever the data sources answer; and it does return one whenever
    [data_types] can be iterated and the three fetchers return. *)
Theorem DataCollectionAgent_reports_no_failure (env : Env) (task : AgentTask) :
  (forall r,
      outcome (DataCollectionAgent_execute env task) = Returned r ->
      success r = true)
  /\ (forall types,
         iter (dict_get (input_data task) "data_types" default_data_types)
         = Returned types ->
         fetchers_return env (dict_get (input_data task) "stock_code" VNone) ->
         exists r,
           outcome (DataCollectionAgent_execute env task) = Returned r
           /\ success r = true).
Proof.
  split.
  - intros r Hr. apply DataCollectionAgent_execute_returned in Hr.
    now destruct Hr as [d ->].
  - intros types Hi Hf.
    destruct (DataCollectionAgent_execute_returns env task types Hi Hf)
      as [r Hr].
    exists r. split; [assumption |].
    apply DataCollectionAgent_execute_returned in Hr. now destruct Hr as [d ->].
Qed.

(** ** C10: the shape of the returned dictionary *)

(** C10.  The dictionary that a run returns has the five keys [stock_code],
    [analysis], [risk_assessment], [investment_strategy] and [timestamp], and
    under [analysis] the keys [fundamental], [technical] and [sentiment] bind
    the data of the first, second and third gathered result: those of the
    fundamental, technical and sentiment agents, in the order in which their
    tasks were created, whatever the order in which they settled. *)
Theorem analyze_stock_result_shape
        (agents : Agents) (order : list nat) (now : string)
        (stock_code : string) (user_profile : dict) (d : dict) :
  outcome (analyze_stock agents order now stock_code user_profile)
  = Returned d ->
  keys d = ["stock_code"; "analysis"; "risk_assessment";
            "investment_strategy"; "timestamp"]
  /\ exists rd rf rt rs,
      outcome (data_collector agents (data_task stock_code)) = Returned rd
      /\ outcome (fundamental agents (fundamental_task stock_code rd))
         = Returned rf
      /\ outcome (technical agents (technical_task stock_code rd))
         = Returned rt
      /\ outcome (sentiment agents (sentiment_task stock_code rd))
         = Returned rs
      /\ outcome (gather order
                    [execute (fundamental agents)
                       (fundamental_task stock_code rd);
                     execute (technical agents) (technical_task stock_code rd);
                     execute (sentiment agents)
                       (sentiment_task stock_code rd)])
         = Returned [rf; rt; rs]
      /\ dict_lookup d "analysis"
         = Some (VDict [("fundamental", VDict (data rf));
                        ("technical", VDict (data rt));
                        ("sentiment", VDict (data rs))]).
Proof.
  intros Hrun. apply analyze_stock_returned_inv in Hrun.
  destruct Hrun as (rd & rf & rt & rs & rr & rg & Hd & Hf & Ht & Hs & Hr & Hg
                    & ->).
  split; [reflexivity |].
  exists rd, rf, rt, rs. repeat (split; [assumption |]).
  split; [| reflexivity].
  destruct (gather3_returned
              (execute (fundamental agents) (fundamental_task stock_code rd))
              (execute (technical agents) (technical_task stock_code rd))
              (execute (sentiment agents) (sentiment_task stock_code rd))
              order rf rt rs Hf Ht Hs) as (ss & _ & H).
  now rewrite H.
Qed.

Lemma analyze_stock_result_shape_witness :
  exists d,
    outcome (analyze_stock (AnalysisOrchestrator_init Sample.env) [2; 0]%nat
               Sample.now "000001" Sample.user_profile) = Returned d
    /\ keys d = ["stock_code"; "analysis"; "risk_assessment";
                 "investment_strategy"; "timestamp"].
Proof.
  eexists. split; [reflexivity |].
  exact (proj1 (analyze_stock_result_shape
                  (AnalysisOrchestrator_init Sample.env) [2; 0]%nat
                  Sample.now "000001" Sample.user_profile _ eq_refl)).
Defined.

(** * Further properties of the agents and of the workflow *)

(** ** The data collector and its [data_types] *)

Lemma collect_skips_unrecognised (env : Env) (stock_code : value) :
  forall (types : list value) (result_data : dict),
    collect env stock_code (filter recognised types) result_data
    = collect env stock_code types result_data.
Proof.
  induction types as [|data_type rest IH]; intros result_data; [reflexivity |].
  cbn [filter]. unfold recognised, data_key.
  destruct (eq_str data_type "price") eqn:Hp.
  - cbn [collect]. rewrite Hp. unfold bind.
    destruct (snd (_fetch_price_data env stock_code)); [| reflexivity].
    now rewrite IH.
  - destruct (eq_str data_type "financial") eqn:Hf.
    + cbn [collect]. rewrite Hp, Hf. unfold bind.
      destruct (snd (_fetch_financial_data env stock_code)); [| reflexivity].
      now rewrite IH.
    + destruct (eq_str data_type "news") eqn:Hn.
      * cbn [collect]. rewrite Hp, Hf, Hn. unfold bind.
        destruct (snd (_fetch_news_data env stock_code)); [| reflexivity].
        now rewrite IH.
      * cbn [collect]. rewrite Hp, Hf, Hn. apply IH.
Qed.

(** X1.  [DataCollectionAgent.execute] lets the entries of [data_types] that
    are none of ['price'], ['financial'], ['news'] through without a word: a
    task whose [data_types] holds only the recognised entries of another
    task's, in the same order, has the same outcome and takes the same
    time. *)
Theorem DataCollectionAgent_ignores_unknown_types
        (env : Env) (task task' : AgentTask) (types : list value) :
  task_id task' = task_id task ->
  dict_get (input_data task') "stock_code" VNone
  = dict_get (input_data task) "stock_code" VNone ->
  iter (dict_get (input_data task) "data_types" default_data_types)
  = Returned types ->
  iter (dict_get (input_data task') "data_types" default_data_types)
  = Returned (filter recognised types) ->
  DataCollectionAgent_execute env task' = DataCollectionAgent_execute env task.
Proof.
  intros Hid Hcode Hiter Hiter'. unfold DataCollectionAgent_execute.
  rewrite Hiter, Hiter', Hid, Hcode. unfold bind, lift. cbn [fst snd].
  now rewrite collect_skips_unrecognised.
Qed.

Lemma DataCollectionAgent_ignores_unknown_types_witness :
  DataCollectionAgent_execute Sample.env
    (AgentTask_new "t" "data_collection"
       [("stock_code", VStr "000001");
        ("data_types", VList [VStr "news"; VStr "price"])])
  = DataCollectionAgent_execute Sample.env
      (AgentTask_new "t" "data_collection"
         [("stock_code", VStr "000001");
          ("data_types",
           VList [VStr "dividends"; VStr "news"; VNum 7; VStr "Price";
                  VStr "price"; VNone])]).
Proof.
  apply (DataCollectionAgent_ignores_unknown_types Sample.env _ _
           [VStr "dividends"; VStr "news"; VNum 7; VStr "Price";
            VStr "price"; VNone]); reflexivity.
Defined.

Lemma keys_dict_set_In (d : dict) (k : string) (v : value) :
  In k (keys d) -> keys (dict_set d k v) = keys d.
Proof.
  induction d as [|[k' v'] d IH]; simpl; [tauto |].
  destruct (String.eqb_spec k' k) as [-> | Hne]; [reflexivity |].
  intros [H | H]; [contradiction |]. simpl. f_equal. now apply IH.
Qed.

Lemma keys_dict_set_fresh (d : dict) (k : string) (v : value) :
  ~ In k (keys d) -> keys (dict_set d k v) = keys d ++ [k].
Proof.
  induction d as [|[k' v'] d IH]; simpl; [reflexivity |].
  destruct (String.eqb_spec k' k) as [-> | Hne]; [tauto |].
  intros H. simpl. f_equal. apply IH. tauto.
Qed.

Lemma keys_dict_set (d : dict) (k : string) (v : value) (k0 : string) :
  In k0 (keys (dict_set d k v)) <-> In k0 (keys d) \/ k0 = k.
Proof.
  destruct (in_dec string_dec k (keys d)) as [Hin | Hnin].
  - rewrite keys_dict_set_In by assumption. split; [tauto |].
    intros [H | ->]; assumption.
  - rewrite keys_dict_set_fresh, in_app_iff by assumption. simpl.
    split; intros [H | H]; auto; destruct H; auto; contradiction.
Qed.

Lemma NoDup_keys_dict_set (d : dict) (k : string) (v : value) :
  NoDup (keys d) -> NoDup (keys (dict_set d k v)).
Proof.
  intros Hnd. destruct (in_dec string_dec k (keys d)) as [Hin | Hnin].
  - now rewrite keys_dict_set_In.
  - rewrite keys_dict_set_fresh by assumption.
    apply NoDup_app; [assumption | repeat constructor; simpl; tauto |].
    intros x Hx [<- | []]. contradiction.
Qed.

Lemma dict_lookup_set (d : dict) (k : string) (v : value) (k0 : string) :
  dict_lookup (dict_set d k v) k0
  = if String.eqb k k0 then Some v else dict_lookup d k0.
Proof.
  induction d as [|[k' v'] d IH]; simpl.
  - reflexivity.
  - destruct (String.eqb_spec k' k) as [-> | Hne]; simpl.
    + now destruct (String.eqb k k0).
    + rewrite IH. destruct (String.eqb_spec k' k0) as [-> | Hne0];
        [| reflexivity].
      destruct (String.eqb_spec k k0) as [-> | _]; [contradiction | reflexivity].
Qed.

(** What [collect] returns, from what it was given. *)
Lemma collect_returned (env : Env) (stock_code : value) :
  forall (types : list value) (result_data d : dict),
    outcome (collect env stock_code types result_data) = Returned d ->
    (NoDup (keys result_data) -> NoDup (keys d))
    /\ (forall k,
           In k (keys d)
           <-> In k (keys result_data)
               \/ exists t, In t types /\ data_key t = Some k)
    /\ (forall k v,
           dict_lookup d k = Some v ->
           dict_lookup result_data k = Some v
           \/ exists fetch,
               fetcher_of env k = Some fetch
               /\ outcome (fetch stock_code) = Returned v).
Proof.
  assert (Hstep : forall (fetch : value -> Coro value) (key : string)
                         (t : value) (rest : list value) (rd d : dict),
             data_key t = Some key ->
             fetcher_of env key = Some fetch ->
             (forall rd' d',
                 outcome (collect env stock_code rest rd') = Returned d' ->
                 (NoDup (keys rd') -> NoDup (keys d'))
                 /\ (forall k, In k (keys d')
                               <-> In k (keys rd')
                                   \/ exists t, In t rest /\ data_key t = Some k)
                 /\ (forall k v,
                        dict_lookup d' k = Some v ->
                        dict_lookup rd' k = Some v
                        \/ exists fetch,
                            fetcher_of env k = Some fetch
                            /\ outcome (fetch stock_code) = Returned v)) ->
             outcome (bind (fetch stock_code)
                        (fun v => collect env stock_code rest
                                    (dict_set rd key v))) = Returned d ->
             (NoDup (keys rd) -> NoDup (keys d))
             /\ (forall k, In k (keys d)
                           <-> In k (keys rd)
                               \/ exists t', In t' (t :: rest)
                                             /\ data_key t' = Some k)
             /\ (forall k v,
                    dict_lookup d k = Some v ->
                    dict_lookup rd k = Some v
                    \/ exists fetch,
                        fetcher_of env k = Some fetch
                        /\ outcome (fetch stock_code) = Returned v)).
  { intros fetch key t rest rd d Hkey Hfetch IH. rewrite outcome_bind.
    destruct (outcome (fetch stock_code)) as [v | e] eqn:Hv; [| discriminate].
    intros Hd. destruct (IH _ _ Hd) as (Hnd & Hin & Hval).
    split; [| split].
    - intros H. apply Hnd, NoDup_keys_dict_set, H.
    - intros k. rewrite Hin, keys_dict_set. split.
      + intros [[H | ->] | (t' & Ht' & Hk)].
        * now left.
        * right. exists t. split; [now left | assumption].
        * right. exists t'. split; [now right | assumption].
      + intros [H | (t' & [<- | Ht'] & Hk)].
        * left. now left.
        * left. right. congruence.
        * right. now exists t'.
    - intros k v0 Hk. destruct (Hval k v0 Hk) as [H | H]; [| now right].
      rewrite dict_lookup_set in H.
      destruct (String.eqb_spec key k) as [<- | _]; [| now left].
      injection H as <-. right. now exists fetch. }
  induction types as [|t rest IH]; intros rd d.
  - simpl. intros [= <-]. split; [tauto | split].
    + intros k. split; [tauto |]. intros [H | (t & [] & _)]. exact H.
    + intros k v H. now left.
  - cbn [collect].
    destruct (eq_str t "price") eqn:Hp.
    { apply (Hstep (_fetch_price_data env) "price_data" t rest rd d);
        [unfold data_key; now rewrite Hp | reflexivity | exact IH]. }
    destruct (eq_str t "financial") eqn:Hf.
    { apply (Hstep (_fetch_financial_data env) "financial_data" t rest rd d);
        [unfold data_key; now rewrite Hp, Hf | reflexivity | exact IH]. }
    destruct (eq_str t "news") eqn:Hn.
    { apply (Hstep (_fetch_news_data env) "news_data" t rest rd d);
        [unfold data_key; now rewrite Hp, Hf, Hn | reflexivity | exact IH]. }
    intros Hd. destruct (IH _ _ Hd) as (Hnd & Hin & Hval).
    split; [assumption | split; [| assumption]].
    intros k. rewrite Hin. split.
    + intros [H | (t' & Ht' & Hk)]; [now left |].
      right. exists t'. split; [now right | assumption].
    + intros [H | (t' & [<- | Ht'] & Hk)]; [now left | |].
      * unfold data_key in Hk. rewrite Hp, Hf, Hn in Hk. discriminate Hk.
      * right. now exists t'.
Qed.

(** X2.  The data that [DataCollectionAgent.execute] returns has one entry
    for each kind of data that was asked for and no other: no key occurs
    twice, a key is there exactly when [data_types] holds the type it stands
    for, and what a key binds is what its fetcher returned for the stock
    code of the task. *)
Theorem DataCollectionAgent_result_data
        (env : Env) (task : AgentTask) (r : AgentResult) :
  outcome (DataCollectionAgent_execute env task) = Returned r ->
  exists types,
    iter (dict_get (input_data task) "data_types" default_data_types)
    = Returned types
    /\ NoDup (keys (data r))
    /\ (forall k,
           In k (keys (data r))
           <-> exists t, In t types /\ data_key t = Some k)
    /\ (forall k v,
           dict_lookup (data r) k = Some v ->
           exists fetch,
             fetcher_of env k = Some fetch
             /\ outcome
                  (fetch (dict_get (input_data task) "stock_code" VNone))
                = Returned v).
Proof.
  unfold DataCollectionAgent_execute. rewrite outcome_bind, outcome_lift.
  destruct (iter _) as [types | e]; [| discriminate].
  rewrite outcome_bind.
  destruct (outcome (collect _ _ _ _)) as [d | e] eqn:Hc; [| discriminate].
  intros [= <-]. exists types. split; [reflexivity |].
  destruct (collect_returned _ _ _ _ _ Hc) as (Hnd & Hin & Hval).
  cbn [data AgentResult_new]. split; [| split].
  - apply Hnd. constructor.
  - intros k. rewrite Hin. simpl. tauto.
  - intros k v Hk. destruct (Hval k v Hk) as [H | H]; [discriminate H | exact H].
Qed.

Lemma DataCollectionAgent_result_data_witness :
  exists types,
    iter (dict_get (input_data (data_task "000001")) "data_types"
            default_data_types) = Returned types
    /\ NoDup ["price_data"; "financial_data"; "news_data"].
Proof.
  destruct (DataCollectionAgent_result_data Sample.env (data_task "000001") _
              eq_refl) as (types & Hiter & Hnd & _).
  exists types. split; [exact Hiter | exact Hnd].
Defined.

Lemma collect_nothing_recognised (env : Env) (stock_code : value) :
  forall (types : list value) (result_data : dict),
    Forall (fun t => recognised t = false) types ->
    collect env stock_code types result_data = ret result_data.
Proof.
  intros types result_data Hall.
  rewrite <- collect_skips_unrecognised.
  replace (filter recognised types) with (@nil value); [reflexivity |].
  induction Hall as [|t rest Ht _ IH]; [reflexivity |].
  simpl. now rewrite Ht.
Qed.

Lemma chars_unrecognised (s : string) :
  Forall (fun t => recognised t = false) (chars s).
Proof.
  unfold chars. apply Forall_forall. intros t Ht.
  apply in_map_iff in Ht. destruct Ht as [c [<- _]].
  unfold recognised, data_key, eq_str. cbn [String.eqb].
  destruct (Ascii.eqb c "p"); destruct (Ascii.eqb c "f");
    destruct (Ascii.eqb c "n"); reflexivity.
Qed.

(** X3.  A [data_types] that is a string, not a list of strings, is
    iterated character by character, and no character is a data type: the
    data collector fetches nothing, takes no time and returns a successful
    result with empty data, whatever the string, ['price'] included. *)
Theorem DataCollectionAgent_string_data_types
        (env : Env) (task : AgentTask) (s : string) :
  dict_lookup (input_data task) "data_types" = Some (VStr s) ->
  DataCollectionAgent_execute env task
  = (0%Q, Returned (AgentResult_new (task_id task) true [])).
Proof.
  intros Hs. unfold DataCollectionAgent_execute, dict_get.
  rewrite Hs. cbn [iter]. unfold bind at 1, lift. cbn [fst snd].
  rewrite collect_nothing_recognised by apply chars_unrecognised.
  reflexivity.
Qed.

Lemma DataCollectionAgent_string_data_types_witness :
  DataCollectionAgent_execute Sample.env
    (AgentTask_new "t" "data_collection"
       [("stock_code", VStr "000001"); ("data_types", VStr "price")])
  = (0%Q, Returned (AgentResult_new "t" true [])).
Proof.
  apply (DataCollectionAgent_string_data_types Sample.env
           (AgentTask_new "t" "data_collection"
              [("stock_code", VStr "000001"); ("data_types", VStr "price")])
           "price").
  reflexivity.
Defined.

(** X4.  A [data_types] that cannot be iterated ([None], a boolean, a
    number, an [AgentResult]) makes the data collector raise a [TypeError]
    before it has fetched anything: no time has passed, and no result is
    returned to carry the error. *)
Theorem DataCollectionAgent_data_types_not_iterable
        (env : Env) (task : AgentTask) (v : value) :
  dict_lookup (input_data task) "data_types" = Some v ->
  (forall l, v <> VList l) -> (forall s, v <> VStr s) ->
  (forall d, v <> VDict d) ->
  exists e,
    DataCollectionAgent_execute env task = (0%Q, Raised e)
    /\ exc_class e = "TypeError".
Proof.
  intros Hv Hl Hs Hd. unfold DataCollectionAgent_execute, dict_get.
  rewrite Hv.
  destruct v as [| b | q | s | l | d | r];
    try (eexists; split; reflexivity).
  - elim (Hs s). reflexivity.
  - elim (Hl l). reflexivity.
  - elim (Hd d). reflexivity.
Qed.

Lemma DataCollectionAgent_data_types_not_iterable_witness :
  exists e,
    DataCollectionAgent_execute Sample.env
      (AgentTask_new "t" "data_collection"
         [("stock_code", VStr "000001"); ("data_types", VNone)])
    = (0%Q, Raised e)
    /\ exc_class e = "TypeError".
Proof.
  apply (DataCollectionAgent_data_types_not_iterable Sample.env
           (AgentTask_new "t" "data_collection"
              [("stock_code", VStr "000001"); ("data_types", VNone)])
           VNone);
    [reflexivity | discriminate | discriminate | discriminate].
Defined.

(** ** The fundamental agent *)


(** ** From the data collector to the analyses *)

Lemma default_collect (env : Env) (stock_code vp vf vn : value) :
  outcome (_fetch_price_data env stock_code) = Returned vp ->
  outcome (_fetch_financial_data env stock_code) = Returned vf ->
  outcome (_fetch_news_data env stock_code) = Returned vn ->
  outcome (collect env stock_code
             [VStr "price"; VStr "financial"; VStr "news"] [])
  = Returned [("price_data", vp); ("financial_data", vf); ("news_data", vn)].
Proof.
  intros Hp Hf Hn. cbn [collect eq_str String.eqb Ascii.eqb Bool.eqb].
  cbn -[bind]. rewrite outcome_bind, Hp. cbn -[bind].
  rewrite outcome_bind, Hf. cbn -[bind]. rewrite outcome_bind, Hn.
  reflexivity.
Qed.

(** X6.  In the workflow as [AnalysisOrchestrator.__init__] builds it, what
    the three fetchers return for the stock code is what the analyses get:
    the data-collection task asks for the three default types, its result
    holds the price, financial and news data in this order, and that
    dictionary is the input of the fundamental, technical and sentiment
    tasks, so that the fundamental agent reads under [financial_data] the
    very value that [_fetch_financial_data] returned. *)
Theorem collected_data_reaches_the_analyses
        (env : Env) (stock_code : string) (vp vf vn : value) :
  outcome (_fetch_price_data env (VStr stock_code)) = Returned vp ->
  outcome (_fetch_financial_data env (VStr stock_code)) = Returned vf ->
  outcome (_fetch_news_data env (VStr stock_code)) = Returned vn ->
  exists rd,
    outcome (data_collector (AnalysisOrchestrator_init env)
               (data_task stock_code)) = Returned rd
    /\ data rd
       = [("price_data", vp); ("financial_data", vf); ("news_data", vn)]
    /\ map (fun c => input_data (co_task c))
           (analysis_coroutines (AnalysisOrchestrator_init env) stock_code rd)
       = [data rd; data rd; data rd]
    /\ dict_get (input_data (fundamental_task stock_code rd))
         "financial_data" VNone = vf.
Proof.
  intros Hp Hf Hn.
  exists (AgentResult_new ("data_" ++ stock_code) true
            [("price_data", vp); ("financial_data", vf); ("news_data", vn)]).
  split; [| repeat split].
  cbn [data_collector AnalysisOrchestrator_init].
  unfold DataCollectionAgent_execute.
  rewrite outcome_bind, outcome_lift. cbn [data_task AgentTask_new input_data].
  change (dict_get [("stock_code", VStr stock_code)] "stock_code" VNone)
    with (VStr stock_code).
  change (iter (dict_get [("stock_code", VStr stock_code)] "data_types"
                  default_data_types))
    with (Returned [VStr "price"; VStr "financial"; VStr "news"]).
  cbv iota beta. rewrite outcome_bind, (default_collect env _ vp vf vn Hp Hf Hn).
  reflexivity.
Qed.

Lemma collected_data_reaches_the_analyses_witness :
  exists rd,
    outcome (data_collector (AnalysisOrchestrator_init Sample.env)
               (data_task "000001")) = Returned rd
    /\ dict_get (input_data (fundamental_task "000001" rd))
         "financial_data" VNone = VDict [("roe", VNum (79 # 5))].
Proof.
  destruct (collected_data_reaches_the_analyses Sample.env "000001"
              (VList [VNum 12; VNum 13]) (VDict [("roe", VNum (79 # 5))])
              (VList [VStr "earnings up"]) eq_refl eq_refl eq_refl)
    as (rd & Hd & _ & _ & Hf).
  exists rd. split; [exact Hd | exact Hf].
Defined.

(** ** Faults in the three concurrent analyses *)

(** X7.  When the analyses that raise all raise the same exception (so, when
    only one of the three raises), the run raises that exception, in
    whatever order the event loop lets the analyses settle. *)
Theorem single_analysis_fault_is_the_run_s
        (agents : Agents) (order : list nat) (now : string)
        (stock_code : string) (user_profile : dict)
        (rd : AgentResult) (e : exn) :
  outcome (data_collector agents (data_task stock_code)) = Returned rd ->
  (exists c, In c (analysis_coroutines agents stock_code rd)
             /\ outcome (co_run c) = Raised e) ->
  (forall c e', In c (analysis_coroutines agents stock_code rd) ->
                outcome (co_run c) = Raised e' -> e' = e) ->
  outcome (analyze_stock agents order now stock_code user_profile) = Raised e.
Proof.
  intros Hd (c & Hc & He) Hsame.
  destruct (analyze_stock_analysis_raised agents order now stock_code
              user_profile rd Hd) as (ss & e' & Hrun & _ & He').
  - exists e. simpl in Hc.
    destruct Hc as [<- | [<- | [<- | []]]]; simpl in He; auto.
  - rewrite Hrun. cbn [outcome snd]. f_equal.
    destruct He' as [He' | [He' | He']];
      [apply (Hsame (execute (fundamental agents)
                       (fundamental_task stock_code rd)))
      | apply (Hsame (execute (technical agents)
                        (technical_task stock_code rd)))
      | apply (Hsame (execute (sentiment agents)
                        (sentiment_task stock_code rd)))];
      simpl; auto.
Qed.

Lemma single_analysis_fault_is_the_run_s_witness :
  outcome (analyze_stock (AnalysisOrchestrator_init Sample.env_technical_raises)
             [2; 1; 0]%nat Sample.now "000001" Sample.user_profile)
  = Raised (mkExn "ValueError" "not enough price history").
Proof.
  apply (single_analysis_fault_is_the_run_s
           (AnalysisOrchestrator_init Sample.env_technical_raises)
           [2; 1; 0]%nat Sample.now "000001" Sample.user_profile
           (AgentResult_new "data_000001" true
              [("price_data", VList [VNum 12; VNum 13]);
               ("financial_data", VDict [("roe", VNum (79 # 5))]);
               ("news_data", VList [VStr "earnings up"])])).
  - reflexivity.
  - eexists. split; [right; left; reflexivity | reflexivity].
  - intros c e' [<- | [<- | [<- | []]]] H; [discriminate H | | discriminate H].
    now injection H as <-.
Defined.

Lemma settle_first_fault (cs : list Coroutine) (i : nat) (post : list nat)
      (c : Coroutine) (e : exn) :
  nth_error cs i = Some c ->
  outcome (co_run c) = Raised e ->
  forall pre : list nat,
    (forall j c', In j pre -> nth_error cs j = Some c' ->
                  exists r, outcome (co_run c') = Returned r) ->
    snd (settle cs (pre ++ i :: post)) = Some e.
Proof.
  intros Hc He. induction pre as [|j pre IH]; intros Hpre.
  - cbn [app settle]. now rewrite Hc, He.
  - cbn [app settle].
    assert (Hrest : snd (settle cs (pre ++ i :: post)) = Some e).
    { apply IH. intros j' c' Hj'. apply Hpre. now right. }
    destruct (nth_error cs j) as [c' |] eqn:Hj; [| exact Hrest].
    destruct (Hpre j c' (or_introl eq_refl) Hj) as [r Hr]. rewrite Hr.
    destruct (settle cs (pre ++ i :: post)) as [evs fault]. exact Hrest.
Qed.



(** ** Faults after the analyses *)

(** X9.  A fault of the risk assessment, or of the strategy generation after
    it, ends the run with that exception although the three analyses have
    all settled with a result: nothing of them is returned.  After a fault
    of the risk assessment the strategy generation is not dispatched. *)
Theorem late_fault_discards_the_analyses
        (agents : Agents) (order : list nat) (now : string)
        (stock_code : string) (user_profile : dict)
        (rd rf rt rs : AgentResult) (e : exn) :
  let run := analyze_stock agents order now stock_code user_profile in
  let risk_outcome :=
    outcome (risk agents (risk_task stock_code [rf; rt; rs] user_profile)) in
  outcome (data_collector agents (data_task stock_code)) = Returned rd ->
  outcome (fundamental agents (fundamental_task stock_code rd)) = Returned rf ->
  outcome (technical agents (technical_task stock_code rd)) = Returned rt ->
  outcome (sentiment agents (sentiment_task stock_code rd)) = Returned rs ->
  risk_outcome = Raised e
  \/ (exists rr,
         risk_outcome = Returned rr
         /\ outcome (strategy agents
                       (strategy_task stock_code [rf; rt; rs] rr user_profile))
            = Raised e) ->
  outcome run = Raised e
  /\ (forall k, existsb (settles (Types.task_type_of k)) (written run) = true)
  /\ (risk_outcome = Raised e ->
      dispatched "strategy_generation" (written run) = false).
Proof.
  intros run risk_outcome Hd Hf Ht Hs Hlate. subst run risk_outcome.
  assert (Hsettled : forall ss tail k,
             Permutation ss (analysis_settles stock_code rd) ->
             existsb (settles (Types.task_type_of k))
               (data_events stock_code ++ analysis_starts stock_code rd
                ++ ss ++ tail) = true).
  { intros ss tail k Hperm. rewrite app_assoc, app_assoc, existsb_app.
    apply orb_true_iff. left. rewrite <- app_assoc.
    rewrite app_assoc. now apply analyses_settled. }
  destruct Hlate as [Hr | (rr & Hr & Hg)].
  - destruct (analyze_stock_risk_raised agents order now stock_code
                user_profile rd rf rt rs e Hd Hf Ht Hs Hr) as (ss & Hperm & ->).
    unfold outcome, written. cbn [fst snd].
    split; [reflexivity | split; [intros k; now apply Hsettled |]].
    intros _. unfold dispatched. rewrite app_assoc, app_assoc, existsb_app.
    apply orb_false_iff. split; [| reflexivity].
    rewrite <- app_assoc.
    rewrite app_assoc. apply later_stages_not_dispatched; [now right |].
    intros x Hx. eapply Permutation_in; eassumption.
  - destruct (analyze_stock_strategy_raised agents order now stock_code
                user_profile rd rf rt rs rr e Hd Hf Ht Hs Hr Hg)
      as (ss & Hperm & ->).
    unfold outcome, written. cbn [fst snd].
    split; [reflexivity | split; [intros k; now apply Hsettled |]].
    intros Hr'. unfold outcome in *. congruence.
Qed.

Lemma late_fault_discards_the_analyses_witness :
  outcome (analyze_stock (AnalysisOrchestrator_init Faulty.env_risk_raises)
             [1; 2]%nat Sample.now "000001" Sample.user_profile)
  = Raised (mkExn "KeyError" "'volatility'").
Proof.
  refine (proj1 (late_fault_discards_the_analyses
                   (AnalysisOrchestrator_init Faulty.env_risk_raises)
                   [1; 2]%nat Sample.now "000001" Sample.user_profile
                   Faulty.data_result _ _ _ _
                   eq_refl eq_refl eq_refl eq_refl (or_introl eq_refl))).
Defined.

(** ** Every task kind once *)

Lemma analysis_settles_types
      (agents : Agents) (stock_code : string) (rd : AgentResult)
      (order : list nat) :
  let ss := fst (settle (analysis_coroutines agents stock_code rd)
                   (completion 3 order)) in
  started_types ss = []
  /\ NoDup (settled_types ss)
  /\ incl (settled_types ss)
       ["fundamental_analysis"; "technical_analysis"; "sentiment_analysis"].
Proof.
  cbv zeta. unfold analysis_coroutines.
  destruct (outcome (fundamental agents (fundamental_task stock_code rd)))
    as [rf | ef] eqn:Hf;
    destruct (outcome (technical agents (technical_task stock_code rd)))
      as [rt | et] eqn:Ht;
    destruct (outcome (sentiment agents (sentiment_task stock_code rd)))
      as [rs | es] eqn:Hs;
    by_order order; cbn [settle nth_error execute co_run co_task];
    rewrite ?Hf, ?Ht, ?Hs; cbn [settle nth_error execute co_run co_task fst];
    rewrite ?Hf, ?Ht, ?Hs; cbn [settle nth_error execute co_run co_task fst];
    rewrite ?Hf, ?Ht, ?Hs; cbn;
    (split; [reflexivity | split]);
    try (repeat constructor; simpl; intuition discriminate);
    intros x Hx; simpl in *; intuition.
Qed.

Lemma analyze_stock_log
      (agents : Agents) (order : list nat) (now : string)
      (stock_code : string) (user_profile : dict) (rd : AgentResult) :
  outcome (data_collector agents (data_task stock_code)) = Returned rd ->
  exists tail,
    written (analyze_stock agents order now stock_code user_profile)
    = data_events stock_code ++ analysis_starts stock_code rd
      ++ fst (settle (analysis_coroutines agents stock_code rd)
                (completion 3 order))
      ++ tail
    /\ (tail = []
        \/ (exists ars, tail = risk_events stock_code user_profile ars)
        \/ (exists ars rr,
               tail = risk_events stock_code user_profile ars
                      ++ strategy_events stock_code user_profile ars rr)).
Proof.
  intros Hd. unfold analyze_stock, bind at 1, await.
  cbn [fst snd co_task co_run execute]. rewrite Hd. cbn [fst snd written].
  fold (analysis_coroutines agents stock_code rd).
  unfold bind at 1, gather.
  change (length (analysis_coroutines agents stock_code rd)) with 3.
  destruct (settle (analysis_coroutines agents stock_code rd)
              (completion 3 order)) as [ss fault].
  cbn [fst snd mappend Monoid_list].
  assert (Hshape : forall tail : list event,
             [Start (data_task stock_code); Settle (data_task stock_code)]
             ++ (map (fun c => Start (co_task c))
                   (analysis_coroutines agents stock_code rd) ++ ss) ++ tail
             = data_events stock_code ++ analysis_starts stock_code rd
               ++ ss ++ tail).
  { intros tail. reflexivity. }
  destruct fault as [e |].
  { exists []. split; [| now left]. rewrite <- Hshape. now rewrite app_nil_r. }
  destruct (results (analysis_coroutines agents stock_code rd)) as [ars | e].
  2:{ exists []. split; [| now left]. rewrite <- Hshape. now rewrite app_nil_r. }
  unfold bind at 1. cbn [fst snd co_task co_run execute].
  destruct (outcome (risk agents (risk_task stock_code ars user_profile)))
    as [rr | e].
  2:{ exists (risk_events stock_code user_profile ars).
      split; [apply Hshape | right; left; now exists ars]. }
  unfold bind at 1. cbn [fst snd co_task co_run execute].
  exists (risk_events stock_code user_profile ars
          ++ strategy_events stock_code user_profile ars rr).
  split; [| right; right; now exists ars, rr].
  rewrite <- Hshape. f_equal. f_equal.
  destruct (outcome (strategy agents
                       (strategy_task stock_code ars rr user_profile)))
    as [rg | e]; cbn [fst snd mappend Monoid_list].
  - unfold report, bind, lift. cbn [fst snd mempty Monoid_list].
    destruct (index ars 0); cbn [fst snd app]; [| reflexivity].
    destruct (index ars 1); cbn [fst snd app]; [| reflexivity].
    destruct (index ars 2); cbn [fst snd app]; reflexivity.
  - reflexivity.
Qed.

Lemma started_types_app (l l' : list event) :
  started_types (l ++ l') = started_types l ++ started_types l'.
Proof. apply flat_map_app. Qed.

Lemma settled_types_app (l l' : list event) :
  settled_types (l ++ l') = settled_types l ++ settled_types l'.
Proof. apply flat_map_app. Qed.

(** X10.  In a run of [analyze_stock] no task kind is dispatched twice and
    none settles twice; a task settles only if it was started; and a run
    that returns has started the six kinds in the order of the workflow,
    data collection, fundamental, technical and sentiment analysis, risk
    assessment, strategy generation, and has seen all six settle. *)
Theorem every_task_kind_at_most_once
        (agents : Agents) (order : list nat) (now : string)
        (stock_code : string) (user_profile : dict) :
  let run := analyze_stock agents order now stock_code user_profile in
  NoDup (started_types (written run))
  /\ NoDup (settled_types (written run))
  /\ incl (settled_types (written run)) (started_types (written run))
  /\ forall d,
      outcome run = Returned d ->
      started_types (written run) = task_types
      /\ Permutation (settled_types (written run)) task_types.
Proof.
  intros run. subst run.
  assert (Hreturned : forall d,
             outcome (analyze_stock agents order now stock_code user_profile)
             = Returned d ->
             started_types
               (written (analyze_stock agents order now stock_code
                           user_profile)) = task_types
             /\ Permutation
                  (settled_types
                     (written (analyze_stock agents order now stock_code
                                 user_profile))) task_types).
  { intros d Hrun. apply analyze_stock_returned_inv in Hrun.
    destruct Hrun as (rd & rf & rt & rs & rr & rg & Hd & Hf & Ht & Hs & Hr
                      & Hg & _).
    destruct (analyze_stock_returned agents order now stock_code user_profile
                rd rf rt rs rr rg Hd Hf Ht Hs Hr Hg) as (ss & Hperm & ->).
    unfold written. cbn [fst].
    rewrite !started_types_app, !settled_types_app.
    pose proof (Permutation_flat_map
                  (fun e => match e with
                            | Start t => [task_type t]
                            | Settle _ => []
                            end) Hperm) as Hst.
    pose proof (Permutation_flat_map
                  (fun e => match e with
                            | Start _ => []
                            | Settle t => [task_type t]
                            end) Hperm) as Hse.
    fold (started_types ss) in Hst. fold (settled_types ss) in Hse.
    cbn in Hst, Hse. apply Permutation_sym, Permutation_nil in Hst.
    rewrite Hst. split; [reflexivity |].
    cbn -[settled_types task_types].
    change (settled_types (data_events stock_code)) with ["data_collection"].
    unfold task_types. cbn [app]. apply perm_skip.
    apply (Permutation_app_tail
             ["risk_assessment"; "strategy_generation"]) in Hse.
    exact Hse. }
  destruct (outcome (data_collector agents (data_task stock_code)))
    as [rd | e] eqn:Hd.
  2:{ rewrite (analyze_stock_data_raised agents order now stock_code
                 user_profile e Hd) in *.
      unfold written. cbn [fst].
      change (started_types (data_events stock_code))
        with ["data_collection"].
      change (settled_types (data_events stock_code))
        with ["data_collection"].
      split; [| split; [| split; [| exact Hreturned]]].
      - constructor; [simpl; tauto | constructor].
      - constructor; [simpl; tauto | constructor].
      - intros x Hx. exact Hx. }
  split; [| split; [| split; [| exact Hreturned]]];
    destruct (analyze_stock_log agents order now stock_code user_profile rd Hd)
      as (tail & -> & Htail);
    destruct (analysis_settles_types agents stock_code rd order)
      as (Hst & Hnd & Hincl);
    rewrite ?started_types_app, ?settled_types_app, ?Hst;
    set (ss := settled_types
                 (fst (settle (analysis_coroutines agents stock_code rd)
                         (completion 3 order)))) in *;
    destruct Htail as [-> | [[ars ->] | (ars & rr & ->)]]; cbn.
  - repeat constructor; simpl; intuition discriminate.
  - repeat constructor; simpl; intuition discriminate.
  - repeat constructor; simpl; intuition discriminate.
  - rewrite app_nil_r. constructor; [| exact Hnd].
    intros Hin. apply Hincl in Hin. simpl in Hin. intuition discriminate.
  - constructor.
    + rewrite in_app_iff. intros [Hin | Hin].
      * apply Hincl in Hin. simpl in Hin. intuition discriminate.
      * simpl in Hin. intuition discriminate.
    + apply NoDup_app; [exact Hnd | repeat constructor; simpl; tauto |].
      intros x Hx [<- | []]. apply Hincl in Hx. simpl in Hx.
      intuition discriminate.
  - constructor.
    + rewrite in_app_iff. intros [Hin | Hin].
      * apply Hincl in Hin. simpl in Hin. intuition discriminate.
      * simpl in Hin. intuition discriminate.
    + apply NoDup_app; [exact Hnd | |].
      * repeat constructor; simpl; intuition discriminate.
      * intros x Hx [<- | [<- | []]]; apply Hincl in Hx; simpl in Hx;
          intuition discriminate.
  - rewrite app_nil_r. intros x [<- | Hx]; [now left |].
    right. apply Hincl in Hx. simpl in *. tauto.
  - intros x [<- | Hx]; [now left |].
    apply in_app_iff in Hx. destruct Hx as [Hx | Hx].
    + right. apply Hincl in Hx. simpl in *. tauto.
    + simpl in *. tauto.
  - intros x [<- | Hx]; [now left |].
    apply in_app_iff in Hx. destruct Hx as [Hx | Hx].
    + right. apply Hincl in Hx. simpl in *. tauto.
    + simpl in *. tauto.
Qed.

(** ** Task identifiers *)

(** X11.  The [task_id] that [analyze_stock] gives to a task tells its kind
    and its stock code: two tasks of the workflow, of the same run or of two
    runs, with the same identifier are of the same kind and for the same
    stock code.  In particular the six tasks of a run have six different
    identifiers. *)
Theorem task_id_identifies_kind_and_stock
        (stock_code stock_code' : string) (user_profile user_profile' : dict)
        (rd rd' rr rr' : AgentResult) (ars ars' : list AgentResult)
        (t t' : AgentTask) :
  In t (run_tasks stock_code user_profile rd ars rr) ->
  In t' (run_tasks stock_code' user_profile' rd' ars' rr') ->
  task_id t = task_id t' ->
  task_type t = task_type t' /\ stock_code = stock_code'.
Proof.
  unfold run_tasks. intros Ht Ht'. simpl in Ht, Ht'.
  destruct Ht as [<- | [<- | [<- | [<- | [<- | [<- | []]]]]]];
    destruct Ht' as [<- | [<- | [<- | [<- | [<- | [<- | []]]]]]];
    cbn [task_id task_type data_task fundamental_task technical_task
           sentiment_task risk_task strategy_task AgentTask_new];
    simpl; intros H; try discriminate H;
    injection H as ->; split; reflexivity.
Qed.

Lemma task_id_identifies_kind_and_stock_witness :
  task_type (sentiment_task "000001" Faulty.data_result)
  = task_type (sentiment_task "000001" Faulty.data_result)
  /\ "000001" = "000001".
Proof.
  apply (task_id_identifies_kind_and_stock
           "000001" "000001" Sample.user_profile [] Faulty.data_result
           Faulty.data_result Faulty.data_result Faulty.data_result [] []);
    [simpl; tauto | simpl; tauto | reflexivity].
Defined.

Corollary run_task_ids_differ
          (stock_code : string) (user_profile : dict)
          (rd rr : AgentResult) (ars : list AgentResult) :
  NoDup (map task_id (run_tasks stock_code user_profile rd ars rr)).
Proof.
  unfold run_tasks.
  cbn [map task_id data_task fundamental_task technical_task sentiment_task
         risk_task strategy_task AgentTask_new].
  repeat constructor; simpl; intuition discriminate.
Qed.

(** * Properties of the front end *)

(** ** The trade history page *)

Lemma keeps_spec (statusFilter typeFilter : string) (trade : Ts.Trade.t) :
  TradeHistory.keeps statusFilter typeFilter trade = true
  <-> (statusFilter = "" \/ Ts.Trade.status trade = statusFilter)
      /\ (typeFilter = "" \/ Ts.Trade.trade_type trade = typeFilter).
Proof.
  unfold TradeHistory.keeps, Ts.truthy.
  destruct (String.eqb_spec statusFilter "") as [Hs | Hs];
    destruct (String.eqb_spec typeFilter "") as [Ht | Ht];
    destruct (String.eqb_spec (Ts.Trade.status trade) statusFilter);
    destruct (String.eqb_spec (Ts.Trade.trade_type trade) typeFilter);
    cbn; intuition congruence.
Qed.

Lemma filter_relative_order {A : Type} (f : A -> bool) :
  forall (l l1 l2 l3 : list A) (a b : A),
    filter f l = l1 ++ a :: l2 ++ b :: l3 ->
    exists m1 m2 m3, l = m1 ++ a :: m2 ++ b :: m3.
Proof.
  induction l as [|x l IH]; intros l1 l2 l3 a b H.
  - destruct l1; discriminate H.
  - cbn [filter] in H. destruct (f x) eqn:Hx.
    + destruct l1 as [|y l1].
      * cbn [app] in H. injection H as -> Hrest.
        assert (Hb : In b l).
        { apply (proj1 (filter_In f b l)). rewrite Hrest.
          apply in_or_app. right. now left. }
        apply in_split in Hb. destruct Hb as (m2 & m3 & ->).
        now exists [], m2, m3.
      * cbn [app] in H. injection H as -> Hrest.
        destruct (IH _ _ _ _ _ Hrest) as (m1 & m2 & m3 & ->).
        now exists (y :: m1), m2, m3.
    + destruct (IH _ _ _ _ _ H) as (m1 & m2 & m3 & ->).
      now exists (x :: m1), m2, m3.
Qed.

(** X12.  The trades that the trade history page lists are those of the
    loaded trades, in their order, that pass both filters, where an empty
    filter passes every trade.  A trade is listed exactly when it was loaded
    and passes; of two listed trades the one listed first was loaded first;
    the listing of a list loaded in two parts is the listing of the first
    part followed by that of the second, and a single trade that passes is
    listed once, so that nothing is listed more often than it was loaded.
    With no filter set nothing is hidden, and filtering by status and type
    at once is filtering by status, then by type. *)
Theorem filteredTrades_spec
        (statusFilter typeFilter : string) (trades : list Ts.Trade.t) :
  (forall trade,
      In trade (TradeHistory.filteredTrades statusFilter typeFilter trades)
      <-> In trade trades
          /\ (statusFilter = "" \/ Ts.Trade.status trade = statusFilter)
          /\ (typeFilter = "" \/ Ts.Trade.trade_type trade = typeFilter))
  /\ (forall l1 a l2 b l3,
         TradeHistory.filteredTrades statusFilter typeFilter trades
         = l1 ++ a :: l2 ++ b :: l3 ->
         exists m1 m2 m3, trades = m1 ++ a :: m2 ++ b :: m3)
  /\ (forall first second,
         trades = first ++ second ->
         TradeHistory.filteredTrades statusFilter typeFilter trades
         = TradeHistory.filteredTrades statusFilter typeFilter first
           ++ TradeHistory.filteredTrades statusFilter typeFilter second)
  /\ (forall trade,
         (statusFilter = "" \/ Ts.Trade.status trade = statusFilter) ->
         (typeFilter = "" \/ Ts.Trade.trade_type trade = typeFilter) ->
         TradeHistory.filteredTrades statusFilter typeFilter [trade]
         = [trade])
  /\ TradeHistory.filteredTrades "" "" trades = trades
  /\ TradeHistory.filteredTrades statusFilter typeFilter trades
     = TradeHistory.filteredTrades "" typeFilter
         (TradeHistory.filteredTrades statusFilter "" trades).
Proof.
  unfold TradeHistory.filteredTrades.
  split; [| split; [| split; [| split; [| split]]]].
  - intros trade. rewrite filter_In, keeps_spec. tauto.
  - intros l1 a l2 b l3 H. exact (filter_relative_order _ _ _ _ _ _ _ H).
  - intros first second ->. apply filter_app.
  - intros trade Hs Ht. cbn [filter].
    now rewrite (proj2 (keeps_spec statusFilter typeFilter trade) (conj Hs Ht)).
  - induction trades as [|t l IH]; [reflexivity |].
    cbn. now rewrite IH.
  - induction trades as [|t l IH]; [reflexivity |]. cbn [filter].
    destruct (TradeHistory.keeps statusFilter typeFilter t) eqn:Hk;
      destruct (TradeHistory.keeps statusFilter "" t) eqn:Hs; cbn [filter].
    + destruct (TradeHistory.keeps "" typeFilter t) eqn:Ht.
      * now rewrite IH.
      * apply keeps_spec in Hk. apply not_true_iff_false in Ht.
        elim Ht. apply keeps_spec. tauto.
    + apply keeps_spec in Hk. apply not_true_iff_false in Hs.
      elim Hs. apply keeps_spec. tauto.
    + destruct (TradeHistory.keeps "" typeFilter t) eqn:Ht; [| exact IH].
      apply keeps_spec in Hs, Ht. apply not_true_iff_false in Hk.
      elim Hk. apply keeps_spec. tauto.
    + exact IH.
Qed.

(** ** The watchlist panel *)


(** ** Routes and navigation *)

(** X14.  The routes never send a visitor in circles and never show a page
    to the wrong visitor.  While the session is being loaded every route
    shows the placeholder.  After that a route either shows its own page, a
    protected one exactly when a user is signed in and a public one exactly
    when none is, or it navigates to a path that is a route and that shows
    its page at once.  The navigation bar, shown only to a signed-in user,
    lists exactly the protected routes, in their order. *)
Theorem routes_show_or_redirect_once (auth : App.Auth) :
  Forall
    (fun r =>
       if App.isLoading auth then App.render auth r = App.Loading
       else
         (App.render auth r = App.Show (App.element r)
          /\ (App.wrapper r = App.Protected <-> App.user auth <> None))
         \/ (exists to r',
                App.render auth r = App.Navigate to
                /\ App.route_at to = Some r'
                /\ App.render auth r' = App.Show (App.element r')))
    App.routes
  /\ map App.path
       (filter (fun r => match App.wrapper r with
                         | App.Protected => true
                         | App.Public => false
                         end) App.routes)
     = App.navItems
  /\ (App.shows_navigation auth = true <-> App.user auth <> None).
Proof.
  destruct auth as [[u |] [|]]; split;
    try (split; [reflexivity |]);
    try (cbn; split; intros; congruence);
    unfold App.routes; repeat (apply Forall_cons); try apply Forall_nil;
    cbn -[App.route_at];
    try reflexivity;
    try (left; split; [reflexivity |]; split; intros; congruence);
    right; eexists; eexists; (split; [reflexivity |]); cbn;
    (split; reflexivity).
Qed.

(** ** The HTTP client *)

Lemma getItem_removeItem (storage : Api.Storage) (key k : string) :
  Api.getItem (Api.removeItem storage key) k
  = if String.eqb k key then None else Api.getItem storage k.
Proof.
  induction storage as [|[k' v] rest IH]; simpl.
  - now destruct (String.eqb k key).
  - destruct (String.eqb_spec k' key) as [Heq | Hne]; simpl; rewrite IH.
    + destruct (String.eqb_spec k key) as [_ | Hk]; [reflexivity |].
      destruct (String.eqb_spec k' k) as [Hk' | _]; [congruence | reflexivity].
    + destruct (String.eqb_spec k' k) as [Hk' | _]; [| reflexivity].
      destruct (String.eqb_spec k key) as [Hk | _]; [congruence | reflexivity].
Qed.

(** X15.  A response with status 401 signs the visitor out: the stored
    token is gone, every other stored item is as before, the browser is
    sent to the login page, the error is still rejected to the caller, and
    the next request leaves the interceptor as it entered it, with no token
    added. *)
Theorem unauthorized_response_signs_out
        (b : Api.Browser) (error : Api.AxiosError) (config : Api.Config) :
  Api.response_status error = Some 401%Z ->
  let '(b', rejected) := Api.on_response_error b error in
  rejected = error
  /\ Api.href b' = "/login"
  /\ Api.getItem (Api.localStorage b') "auth_token" = None
  /\ (forall k, k <> "auth_token" ->
                Api.getItem (Api.localStorage b') k
                = Api.getItem (Api.localStorage b) k)
  /\ Api.on_request b' config = config.
Proof.
  intros H401. unfold Api.on_response_error. rewrite H401.
  cbn [Api.href Api.localStorage].
  split; [reflexivity | split; [reflexivity |]].
  assert (Hgone : Api.getItem
                    (Api.removeItem (Api.localStorage b) "auth_token")
                    "auth_token" = None).
  { rewrite getItem_removeItem. now rewrite String.eqb_refl. }
  split; [exact Hgone | split].
  - intros k Hk. rewrite getItem_removeItem.
    now destruct (String.eqb_spec k "auth_token").
  - unfold Api.on_request. cbn [Api.localStorage]. now rewrite Hgone.
Qed.

Lemma unauthorized_response_signs_out_witness :
  let '(b', rejected) :=
    Api.on_response_error Visit.browser Visit.unauthorized in
  rejected = Visit.unauthorized
  /\ Api.href b' = "/login"
  /\ Api.getItem (Api.localStorage b') "auth_token" = None
  /\ (forall k, k <> "auth_token" ->
                Api.getItem (Api.localStorage b') k
                = Api.getItem (Api.localStorage Visit.browser) k)
  /\ Api.on_request b' Visit.request = Visit.request.
Proof.
  apply (unauthorized_response_signs_out Visit.browser Visit.unauthorized
           Visit.request).
  reflexivity.
Defined.

Lemma header_set_header (hs : list (string * string)) (name v n : string) :
  Api.header (Api.set_header hs name v) n
  = if String.eqb name n then Some v else Api.header hs n.
Proof.
  induction hs as [|[n' v'] rest IH]; simpl.
  - reflexivity.
  - destruct (String.eqb_spec n' name) as [Heq | Hne]; simpl.
    + destruct (String.eqb_spec n' n) as [Hn | Hn];
        destruct (String.eqb_spec name n) as [Hm | Hm];
        congruence.
    + rewrite IH. destruct (String.eqb_spec n' n) as [Hn | _];
        [| reflexivity].
      destruct (String.eqb_spec name n) as [Hm | _];
        [congruence | reflexivity].
Qed.

(** X16.  The request interceptor sends the stored token and nothing else:
    with a non-empty token in the storage the request carries
    [Authorization: Bearer <token>], in place of any [Authorization] header
    it had, and its URL and other headers are untouched; with no token, or
    an empty one, the request is untouched. *)
Theorem request_carries_the_stored_token
        (b : Api.Browser) (config : Api.Config) :
  match Api.getItem (Api.localStorage b) "auth_token" with
  | Some token =>
      if String.eqb token "" then Api.on_request b config = config
      else
        Api.header (Api.headers (Api.on_request b config)) "Authorization"
        = Some ("Bearer " ++ token)%string
        /\ Api.url (Api.on_request b config) = Api.url config
        /\ forall n, n <> "Authorization" ->
                     Api.header (Api.headers (Api.on_request b config)) n
                     = Api.header (Api.headers config) n
  | None => Api.on_request b config = config
  end.
Proof.
  unfold Api.on_request, Ts.truthy.
  destruct (Api.getItem (Api.localStorage b) "auth_token") as [token |];
    [| reflexivity].
  destruct (String.eqb token ""); [reflexivity |].
  cbn [negb Api.headers Api.url]. split; [| split; [reflexivity |]].
  - rewrite header_set_header. now rewrite String.eqb_refl.
  - intros n Hn. rewrite header_set_header.
    destruct (String.eqb_spec "Authorization" n) as [<- | _];
      [contradiction | reflexivity].
Qed.

(** ** The dashboard *)

(** X17.  [loadDashboardData] always ends the loading state, and treats its
    two requests differently.  A failure of the portfolios request is
    absorbed: the analyses are shown, the first five of the history in
    their order, with an empty list of portfolios.  A failure of the history
    request discards both answers: the analyses and the portfolios stay as
    they were, also when the portfolios request succeeded. *)
Theorem loadDashboardData_outcomes
        (getHistory : Ts.Settled (list Ts.InvestmentRecommendation.t))
        (getPortfolios : Ts.Settled (list Ts.Portfolio.t))
        (st : Dashboard.State) :
  let st' := Dashboard.loadDashboardData getHistory getPortfolios st in
  Dashboard.isLoading st' = false
  /\ match getHistory with
     | Ts.Fulfilled analyses =>
         Dashboard.recentAnalyses st' = firstn 5 analyses
         /\ length (Dashboard.recentAnalyses st') = Nat.min 5 (length analyses)
         /\ Dashboard.portfolios st'
            = match getPortfolios with
              | Ts.Fulfilled portfoliosData => portfoliosData
              | Ts.Rejected _ => []
              end
     | Ts.Rejected _ =>
         Dashboard.recentAnalyses st' = Dashboard.recentAnalyses st
         /\ Dashboard.portfolios st' = Dashboard.portfolios st
     end.
Proof.
  cbv zeta. unfold Dashboard.loadDashboardData.
  destruct getHistory as [analyses | r];
    destruct getPortfolios as [portfoliosData | r'];
    cbn -[firstn Nat.min]; repeat split; try reflexivity; apply length_firstn.
Qed.
